(** * ec2_instance: reconciliation of EC2 instances against a desired configuration

    A shallow embedding of [lib/ansible/modules/cloud/amazon/ec2_instance.py].
    Python dictionaries are finite maps ([gmap]), Python sets are finite sets
    ([gset]); every call made through the boto3 client is an event of a trace,
    answered by a provider that may depend on everything that happened before.
    Exceptions and the [SystemExit] of [module.exit_json] / [module.fail_json]
    are outcomes of a small trace-passing monad. *)

From Stdlib Require Import ZArith List Ascii String Bool Lia.
From stdpp Require Import base gmap sets list strings.

(** ** Data model *)

(** The provider's view of an instance: the keys of the boto3 description
    that the module reads. [StateName] is [inst['State']['Name']],
    [NetworkInterfaces] holds the [NetworkInterfaceId] of every attachment and
    [Tags] is the boto3 tag list of [Key]/[Value] pairs. *)
Record Instance := mkInstance {
  InstanceId : string;
  StateName : string;
  Tags : list (string * string);
  NetworkInterfaces : list string;
  SourceDestCheck : bool;
  PublicDnsName : string;
}.

Record Subnet := mkSubnet {
  SubnetId : string;
  AvailabilityZone : string;
  SubnetVpcId : string;
}.

Record Vpc := mkVpc { VpcId : string }.

Record SecurityGroup := mkSecurityGroup { GroupId : string; GroupName : string }.

(** The desired configuration ([module.params]). An absent or [None] entry
    is [None]; the field names are the keys of the argument spec.
    [network.interfaces] entries are either a bare interface identifier or a
    dictionary, whose ['id'] key (when present) holds an identifier. *)
Record InterfaceParams := mkInterfaceParams {
  interface_id : option string;
  delete_on_termination : option bool;
  ipv6_addresses : option (list string);
  interface_private_ip_address : option string;
  description : option string;
  interface_subnet_id : option string;
}.

Inductive InterfaceRef :=
| interface_text (eni : string)
| interface_dict (d : InterfaceParams).

Record Network := mkNetwork {
  assign_public_ip : option bool;
  private_ip_address : option string;
  interfaces : option (list InterfaceRef);
  source_dest_check : option bool;
  network_ebs_optimized : option bool;
}.

Record Image := mkImage {
  image_dict_id : option string;
  ramdisk : option string;
  kernel : option string;
}.

Record LaunchTemplate := mkLaunchTemplate {
  launch_template_id : option string;
  launch_template_name : option string;
  launch_template_version : option string;
}.

Record TowerCallback := mkTowerCallback {
  tower_address : option string;
  job_template_id : option string;
  host_config_key : option string;
  windows : bool;
  set_password : option string;
}.

Record Params := mkParams {
  state : string;
  wait : bool;
  wait_timeout : Z;
  image : option Image;
  image_id : option string;
  instance_type : string;
  user_data : option string;
  tower_callback : option TowerCallback;
  ebs_optimized : option bool;
  vpc_subnet_id : option string;
  availability_zone : option string;
  security_groups : option (list string);
  security_group : option string;
  instance_role : option string;
  name : option string;
  tags : option (gmap string string);
  purge_tags : bool;
  filters : option (gmap string (list string));
  launch_template : option LaunchTemplate;
  key_name : option string;
  cpu_credit_specification : option string;
  tenancy : option string;
  instance_initiated_shutdown_behavior : option string;
  termination_protection : option bool;
  detailed_monitoring : option bool;
  instance_ids : list string;
  network : option Network;
  volumes : option (list (gmap string string));
}.

(** The creation request assembled by the spec builder. *)
Record InterfaceSpec := mkInterfaceSpec {
  DeviceIndex : nat;
  AssociatePublicIpAddress : option bool;
  InterfaceSubnetId : option string;
  PrivateIpAddress : option string;
  Groups : option (list string);
  InterfaceNetworkInterfaceId : option string;
  DeleteOnTermination : option bool;
  Ipv6Addresses : option (list string);
  Description : option string;
}.

Record LaunchTemplateSpec := mkLaunchTemplateSpec {
  LaunchTemplateId : option string;
  LaunchTemplateName : option string;
  Version : option string;
}.

Record TopLevelOptions := mkTopLevelOptions {
  ImageId : option string;
  RamdiskId : option string;
  KernelId : option string;
  KeyName : option string;
  UserData : option string;
  LaunchTemplate_ : option LaunchTemplateSpec;
  Monitoring : option bool;
  CreditSpecification : option string;
  Placement : option string;
  EbsOptimized : option bool;
  InstanceInitiatedShutdownBehavior : option string;
  DisableApiTermination : option bool;
}.

Record TagSpecification := mkTagSpecification {
  ResourceType : string;
  TagSpecificationTags : list (string * string);
}.

Record RunInstanceSpec := mkRunInstanceSpec {
  ClientToken : string;
  MaxCount : Z;
  MinCount : Z;
  SpecNetworkInterfaces : list InterfaceSpec;
  BlockDeviceMappings : list (gmap string string);
  TopLevel : TopLevelOptions;
  TagSpecifications : list TagSpecification;
  IamInstanceProfile : option string;
  InstanceType : string;
}.

(** Python and botocore exceptions that the module meets. *)
Inductive Exn :=
| ClientError (code : string)
| BotoCoreError
| WaiterError
| WaiterConfigError
| TypeError (msg : string)
| KeyError (key : string)
| ValueError (msg : string)
| IndexError
| AttributeError (msg : string).

(** [WaiterError] and [WaiterConfigError] derive from [BotoCoreError]; this is
    the test made by [except (ClientError, BotoCoreError)]. *)
Definition is_boto_error (e : Exn) : bool :=
  match e with
  | ClientError _ | BotoCoreError | WaiterError | WaiterConfigError => true
  | _ => false
  end.

(** One attribute mutation: the keyword arguments later handed to
    [modify_instance_attribute]. The value is always wrapped as
    [{'Value': v}]. *)
Record ChangeRequest := mkChange {
  change_InstanceId : string;
  change_attribute : string;
  change_Value : bool;
}.

(** Requests sent through the boto3 clients (and the two other sources of
    outside input, the waiter and [uuid.uuid4]). *)
Inductive Call :=
| describe_instances_ids (InstanceIds : list string)
| describe_instances_filters (Filters : list (string * list string))
| terminate_instances (InstanceIds : list string)
| stop_instances (InstanceIds : list string)
| start_instances (InstanceIds : list string)
| waiter_wait (waiter : string) (InstanceIds : list string) (Delay MaxAttempts : Z)
| create_tags (Resources : list string) (tags : list (string * string))
| delete_tags (Resources : list string) (tags : list (string * option string))
| describe_instance_attribute (Attribute InstanceId : string)
| modify_instance_attribute (c : ChangeRequest)
| attach_network_interface (DeviceIndex : nat) (InstanceId NetworkInterfaceId : string)
| describe_subnets_filters (Filters : list (string * list string))
| describe_subnets_ids (SubnetIds : list string)
| describe_vpcs (Filters : list (string * list string))
| describe_security_groups (Filters : list (string * list string))
| get_instance_profile (InstanceProfileName : string)
| uuid4_hex.

Inductive Response :=
| RInstances (l : list Instance)
| RIds (l : list string)
| RValue (b : bool)
| RSubnets (l : list Subnet)
| RVpcs (l : list Vpc)
| RGroups (l : list SecurityGroup)
| RStr (s : string)
| RDone
| RRaise (e : Exn).

Inductive Event :=
| Called (c : Call) (r : Response)
| Warned (msg : string).

(** The provider answers a request knowing the whole history. *)
Definition Provider := list Event → Call → Response.

(** Keyword arguments of [exit_json] and [fail_json]. *)
Inductive Json :=
| JStr (s : string)
| JBool (b : bool)
| JIds (l : list string)
| JInstances (l : list Instance)
| JChanges (l : list ChangeRequest).

Inductive SystemExit :=
| fail_json (kwargs : list (string * Json))
| exit_json (kwargs : list (string * Json)).

(** ** The monad of module code *)

Inductive Outcome (A : Type) :=
| Ret (a : A)
| Raise (e : Exn)
| Exit (x : SystemExit).
Arguments Ret {A} a.
Arguments Raise {A} e.
Arguments Exit {A} x.

Definition M (A : Type) : Type := list Event → Outcome A * list Event.

Definition M_ret {A} (a : A) : M A := λ h, (Ret a, h).

Definition M_bind {A B} (k : A → M B) (m : M A) : M B := λ h,
  match m h with
  | (Ret a, h') => k a h'
  | (Raise e, h') => (Raise e, h')
  | (Exit x, h') => (Exit x, h')
  end.

#[global] Instance M_mret : MRet M := @M_ret.
#[global] Instance M_mbind : MBind M := @M_bind.

Definition raise {A} (e : Exn) : M A := λ h, (Raise e, h).
Definition sys_exit {A} (x : SystemExit) : M A := λ h, (Exit x, h).

(** [try: m except ...: ...]; [handler e] is [None] when no clause catches
    [e]. *)
Definition try_except {A} (m : M A) (handler : Exn → option (M A)) : M A := λ h,
  match m h with
  | (Raise e, h') =>
      match handler e with
      | Some k => k h'
      | None => (Raise e, h')
      end
  | r => r
  end.

(** A [for] loop that threads the variables it assigns. *)
Fixpoint for_each {A S} (l : list A) (body : A → S → M S) (s : S) : M S :=
  match l with
  | [] => mret s
  | x :: rest => s' ← body x s; for_each rest body s'
  end.

Definition warn (msg : string) : M unit := λ h, (Ret tt, h ++ [Warned msg]).

(** What the caller of a request sees of the provider's response. *)
Definition answer (r : Response) : Outcome Response :=
  match r with
  | RRaise e => Raise e
  | _ => Ret r
  end.

(** ** Python helpers *)

Definition truthy_str (o : option string) : bool :=
  match o with Some (String _ _) => true | _ => false end.

Definition truthy_list {A} (o : option (list A)) : bool :=
  match o with Some (_ :: _) => true | _ => false end.

Definition is_not_None {A} (o : option A) : bool :=
  match o with Some _ => true | None => false end.

(** [s.startswith(p)] *)
Definition startswith (s p : string) : bool := String.prefix p s.

(** [s.replace(old, new)] for one-character [old] and [new]. *)
Fixpoint replace (old new : ascii) (s : string) : string :=
  match s with
  | EmptyString => EmptyString
  | String c rest =>
      String (if Ascii.eqb c old then new else c) (replace old new rest)
  end.

(** [', '.join(l)] *)
Fixpoint join (sep : string) (l : list string) : string :=
  match l with
  | [] => ""
  | [x] => x
  | x :: rest => x +:+ sep +:+ join sep rest
  end.

(** [l.index(x)] *)
Fixpoint index (l : list string) (x : string) : option nat :=
  match l with
  | [] => None
  | y :: rest => if String.eqb y x then Some 0 else S <$> index rest x
  end.

(** [d.pop(key)]: the value and the dictionary without the key. *)
Definition dict_pop {V} (key : string) (d : gmap string V) : M (V * gmap string V) :=
  match d !! key with
  | Some v => mret (v, delete key d)
  | None => raise (KeyError key)
  end.

(** [dict(pairs)]: a later pair overrides an earlier one with the same key. *)
Definition dict_of_pairs {V} (pairs : list (string * V)) : gmap string V :=
  foldl (λ d kv, <[kv.1 := kv.2]> d) ∅ pairs.

(** Modelled from the spec: [ansible_dict_to_boto3_filter_list] of
    [module_utils/ec2.py]. A Filter maps a filter key to the ordered list of
    accepted values; the provider takes the list of its [Name]/[Values]
    entries. *)
Definition ansible_dict_to_boto3_filter_list
    (filters : gmap string (list string)) : list (string * list string) :=
  map_to_list filters.

(** Modelled from the spec: [boto3_tag_list_to_ansible_dict] and
    [ansible_dict_to_boto3_tag_list] of [module_utils/ec2.py], the two
    directions between the provider's tag list and a plain mapping. *)
Definition boto3_tag_list_to_ansible_dict
    (tags : list (string * string)) : gmap string string :=
  dict_of_pairs tags.

Definition ansible_dict_to_boto3_tag_list {V}
    (tags : gmap string V) : list (string * V) :=
  map_to_list tags.

(** [re.match(r'^arn:aws:iam::\d+:instance-profile/[\w+=/,.@-]+$', s)] on
    byte strings: [\d] is an ASCII digit, [\w] an ASCII letter, digit or
    underscore, and [$] also matches before a final newline. *)
Definition is_digit (c : ascii) : bool :=
  let n := nat_of_ascii c in (48 <=? n)%nat && (n <=? 57)%nat.

Definition is_word (c : ascii) : bool :=
  let n := nat_of_ascii c in
  is_digit c || ((65 <=? n)%nat && (n <=? 90)%nat)
  || ((97 <=? n)%nat && (n <=? 122)%nat) || Ascii.eqb c "_".

Definition is_profile_char (c : ascii) : bool :=
  is_word c || Ascii.eqb c "+" || Ascii.eqb c "=" || Ascii.eqb c "/"
  || Ascii.eqb c "," || Ascii.eqb c "." || Ascii.eqb c "@" || Ascii.eqb c "-".

Fixpoint strip_prefix (p s : string) : option string :=
  match p, s with
  | EmptyString, _ => Some s
  | String a p', String b s' => if Ascii.eqb a b then strip_prefix p' s' else None
  | String _ _, EmptyString => None
  end.

(** The longest prefix of [s] made of characters in the class, and the rest. *)
Fixpoint span (class : ascii → bool) (s : string) : string * string :=
  match s with
  | String c rest =>
      if class c then let '(run, tail) := span class rest in (String c run, tail)
      else (EmptyString, s)
  | EmptyString => (EmptyString, EmptyString)
  end.

Definition newline : string := String "010" EmptyString.

Definition match_instance_profile_arn (s : string) : bool :=
  match strip_prefix "arn:aws:iam::" s with
  | Some rest =>
      let '(account, rest) := span is_digit rest in
      if String.eqb account "" then false
      else
        match strip_prefix ":instance-profile/" rest with
        | Some rest =>
            let '(profile, tail) := span is_profile_char rest in
            negb (String.eqb profile "")
            && (String.eqb tail "" || String.eqb tail newline)
        | None => false
        end
  | None => false
  end.

(** A dictionary is true when it has a key. *)
Definition truthy_launch_template (o : option LaunchTemplate) : bool :=
  match o with
  | Some lt =>
      is_not_None (launch_template_id lt) || is_not_None (launch_template_name lt)
      || is_not_None (launch_template_version lt)
  | None => false
  end.

Definition empty_network : Network := mkNetwork None None None None None.

(** The key under which a filter is submitted. *)
Definition normalize_key (key : string) : string :=
  if startswith key "tag:" then key else replace "_" "-" key.

Section Module.

(** The boto3 clients ([module.client('ec2')], [module.client('iam')]). *)
Variable ec2 : Provider.

(** The global [module]: its [params]. *)
Variable module_params : Params.

(** Modelled from the spec: what [AWSRetry] of [module_utils/ec2.py] retries.
    The spec names the error class (transient, server side) and a fixed
    attempt ceiling, and gives neither the codes nor the number. *)
Variable transient : string → bool.
Variable retries : nat.

(** [ec2_utils.snake_dict_to_camel_dict(v, capitalize_first=True)] of
    [module_utils/ec2.py], which renames the keys of a volume description. *)
Variable snake_dict_to_camel_dict : gmap string string → gmap string string.

(** The texts produced by [tower_callback_script]: the PowerShell template
    filled with the password (when there is one), and the retry-loop shell
    script filled with the callback address, job template and host key. *)
Variable powershell_script : option string → string.
Variable callback_script : string → string → string → string.

Definition call (c : Call) : M Response := λ h,
  let r := ec2 h c in (answer r, h ++ [Called c r]).

(** [list(paginator.paginate(...).search('Reservations[].Instances[]'))] *)
Definition paginate_instances (c : Call) : M (list Instance) :=
  r ← call c;
  match r with
  | RInstances l => mret l
  | _ => raise (KeyError "Reservations")
  end.

(** ** Resource locator *)

(** The loop of [find_instances] over [filters.keys()], a list of the keys
    present on entry (Python 2 semantics of [keys()]). The loop renames the
    keys of the caller's dictionary in place; the embedding passes
    dictionaries by value, which gives the same requests, since the loop
    changes nothing in a dictionary that it has renamed already. *)
Fixpoint normalize_filter_keys (keys : list string)
    (filters : gmap string (list string)) : M (gmap string (list string)) :=
  match keys with
  | [] => mret filters
  | key :: rest =>
      if negb (startswith key "tag:") then
        '(v, popped) ← dict_pop key filters;
        normalize_filter_keys rest (<[replace "_" "-" key := v]> popped)
      else normalize_filter_keys rest filters
  end.

Definition find_instances (ids : option (list string))
    (filters : option (gmap string (list string))) : M (list Instance) :=
  if truthy_list ids then
    paginate_instances (describe_instances_ids (default [] ids))
  else
    match filters with
    | None =>
        sys_exit (fail_json [("msg", JStr "No filters provided when they were required")])
    | Some filters =>
        filters ← normalize_filter_keys (map_to_list filters).*1 filters;
        paginate_instances
          (describe_instances_filters (ansible_dict_to_boto3_filter_list filters))
    end.

(** ** Backoff executor *)

(** Modelled from the spec: [AWSRetry.jittered_backoff] of
    [module_utils/ec2.py]. A call that raises a transient provider error is
    made again, up to the attempt ceiling; any other exception propagates at
    once. The delays between attempts are not part of the model. *)
Fixpoint backoff {A} (n : nat) (f : M A) : M A :=
  match n with
  | 0 => f
  | S n' => λ h,
      match f h with
      | (Raise (ClientError code), h') =>
          if transient code then backoff n' f h'
          else (Raise (ClientError code), h')
      | r => r
      end
  end.

Definition jittered_backoff {A} (f : M A) : M A := backoff retries f.

(** Modelled from the spec: [module.fail_json_aws] of
    [module_utils/aws/core.py], a fatal error that reports the message and the
    provider's error. *)
Definition fail_json_aws {A} (e : Exn) (msg : string) : M A :=
  sys_exit (fail_json [("msg", JStr msg);
    ("error_code", JStr (match e with ClientError code => code | _ => "" end))]).

(** ** Tag reconciler *)

(** Modelled from the spec: [compare_aws_tags] of [module_utils/ec2.py].
    [toSet] holds the desired entries whose key is absent from the observed
    tags or whose value differs; [toDelete] holds, when purging, the observed
    keys absent from the desired tags. *)
Definition compare_aws_tags (old_tags new_tags : gmap string string)
    (purge_tags : bool) : gmap string string * gset string :=
  (filter (λ kv, old_tags !! kv.1 ≠ Some kv.2) new_tags,
   if purge_tags then dom old_tags ∖ dom new_tags else ∅).

Definition manage_tags_body (match_ : Instance) (new_tags : gmap string string)
    (purge_tags : bool) : M bool :=
  let changed := false in
  let old_tags := boto3_tag_list_to_ansible_dict (Tags match_) in
  let '(tags_to_set, tags_to_delete) :=
    compare_aws_tags old_tags new_tags purge_tags in
  changed ←
    (if bool_decide (tags_to_set ≠ ∅) then
       call (create_tags [InstanceId match_]
               (ansible_dict_to_boto3_tag_list tags_to_set));;
       mret (changed || true)
     else mret changed);
  changed ←
    (if bool_decide (tags_to_delete ≠ ∅) then
       let delete_with_current_values : gmap string (option string) :=
         set_to_map (λ k, (k, old_tags !! k)) tags_to_delete in
       call (delete_tags [InstanceId match_]
               (ansible_dict_to_boto3_tag_list delete_with_current_values));;
       mret (changed || true)
     else mret changed);
  mret changed.

Definition manage_tags (match_ : Instance) (new_tags : gmap string string)
    (purge_tags : bool) : M bool :=
  jittered_backoff (manage_tags_body match_ new_tags purge_tags).

(** ** State transition controller *)

Definition state_opts : list (string * string) :=
  [("OK", "instance_status_ok");
   ("STOPPED", "instance_stopped");
   ("TERMINATED", "instance_terminated");
   ("EXISTS", "instance_exists");
   ("RUNNING", "instance_running")].

(** The text of a waiter exception, [to_native(e)], is rendered by its
    class name. *)
Definition await_instances (ids : list string) (state : string) : M unit :=
  if negb (wait module_params) then mret tt
  else
    match (list_to_map state_opts : gmap string string) !! state with
    | None =>
        sys_exit (fail_json
          [("msg", JStr ("Cannot wait for state " +:+ state +:+ ", invalid state"))])
    | Some waiter =>
        try_except
          (call (waiter_wait waiter ids 15 (wait_timeout module_params `div` 15));;
           mret tt)
          (λ e, match e with
                | WaiterConfigError =>
                    Some (sys_exit (fail_json
                      [("msg", JStr ("WaiterConfigError. Error waiting for instances "
                          +:+ join ", " ids +:+ " to reach state " +:+ state))]))
                | WaiterError =>
                    Some (warn ("Instances " +:+ join ", " ids
                      +:+ " took too long to reach state " +:+ state
                      +:+ ". WaiterError"))
                | _ => None
                end)
    end.

(** [resp['TerminatingInstances']] and the like: the identifiers that the
    provider acknowledges. *)
Definition call_ids (c : Call) : M (list string) :=
  r ← call c;
  match r with
  | RIds l => mret l
  | _ => raise (KeyError "Instances")
  end.

(** One iteration of the loop of [change_instance_state] over the located
    instances, on the sets [changed] and [unchanged]. The three tests on
    [desired_state] exclude one another, so a call that raises is the first
    effect of its iteration: the handler ([pass]) leaves both sets as they
    were on entry. *)
Definition change_one (desired_state : string) (inst : Instance)
    (sets : gset string * gset string) : M (gset string * gset string) :=
  let '(changed0, unchanged) := sets in
  try_except
    (changed ←
       (if String.eqb desired_state "TERMINATED" then
          resp ← call_ids (terminate_instances [InstanceId inst]);
          mret (changed0 ∪ list_to_set resp)
        else mret changed0);
     if String.eqb desired_state "STOPPED"
        && String.eqb (StateName inst) "stopping"
     then mret (changed, unchanged ∪ {[InstanceId inst]})
     else
       changed ←
         (if String.eqb desired_state "STOPPED" then
            resp ← call_ids (stop_instances [InstanceId inst]);
            mret (changed ∪ list_to_set resp)
          else mret changed);
       changed ←
         (if String.eqb desired_state "RUNNING" then
            resp ← call_ids (start_instances [InstanceId inst]);
            mret (changed ∪ list_to_set resp)
          else mret changed);
       mret (changed, unchanged))
    (λ e, if is_boto_error e then Some (mret (changed0, unchanged)) else None).

Definition change_instance_state_body
    (filters : option (gmap string (list string))) (desired_state : string)
    : M (gset string * list string * list Instance) :=
  instances ← find_instances None filters;
  let to_change : gset string := list_to_set (InstanceId <$> instances) in
  '(changed, unchanged) ← for_each instances (change_one desired_state) (∅, ∅);
  (if bool_decide (changed ≠ ∅) then
     await_instances (elements changed ++ elements unchanged) desired_state
   else mret tt);;
  let change_failed := elements (to_change ∖ changed) in
  instances ← find_instances (Some (elements to_change)) None;
  mret (changed, change_failed, instances).

Definition change_instance_state
    (filters : option (gmap string (list string))) (desired_state : string)
    : M (gset string * list string * list Instance) :=
  jittered_backoff (change_instance_state_body filters desired_state).

(** [camel_dict_to_snake_dict] only renames the keys of the description. *)
Definition pretty_instance (i : Instance) : Instance := i.

(** The body shared by the branches of [ensure_instance_state] once
    [change_instance_state] has answered. *)
Definition report_state_change (fail_msg ok_msg success_key failed_key : string)
    (changed : gset string) (failed : list string) (instances : list Instance)
    : M unit :=
  (if bool_decide (failed ≠ []) then
     sys_exit (fail_json [("msg", JStr fail_msg);
                          (success_key, JIds (elements changed));
                          (failed_key, JIds failed)])
   else mret tt);;
  sys_exit (exit_json [("msg", JStr ok_msg);
                       (success_key, JIds (elements changed));
                       ("changed", JBool (bool_decide (size changed ≠ 0)));
                       (failed_key, JIds []);
                       ("instances", JInstances (pretty_instance <$> instances))]).

Definition ensure_instance_state (state : string) : M unit :=
  if bool_decide (state ∈ ["running"; "started"]) then
    '(changed, failed, instances) ←
      change_instance_state (filters module_params) "RUNNING";
    report_state_change "Unable to start instances" "Instances started"
      "reboot_success" "reboot_failed" changed failed instances
  else if bool_decide (state ∈ ["restarted"; "rebooted"]) then
    '(changed, failed, instances) ←
      change_instance_state (filters module_params) "STOPPED";
    '(changed, failed, instances) ←
      change_instance_state (filters module_params) "RUNNING";
    report_state_change "Unable to restart instances" "Instances restarted"
      "reboot_success" "reboot_failed" changed failed instances
  else if bool_decide (state ∈ ["stopped"]) then
    '(changed, failed, instances) ←
      change_instance_state (filters module_params) "STOPPED";
    report_state_change "Unable to stop instances" "Instances stopped"
      "stop_success" "stop_failed" changed failed instances
  else if bool_decide (state ∈ ["absent"; "terminated"]) then
    '(terminated, terminate_failed, instances) ←
      change_instance_state (filters module_params) "TERMINATED";
    report_state_change "Unable to terminate instances" "Instances terminated"
      "terminate_success" "terminate_failed" terminated terminate_failed instances
  else mret tt.

(** ** Attribute diff engine *)

Record ParamMapper := mkParamMapper {
  param_key : Params → option bool;
  instance_key : string;
  attribute_name : string;
}.

Definition param_mappings : list ParamMapper :=
  [mkParamMapper ebs_optimized "EbsOptimized" "ebsOptimized";
   mkParamMapper termination_protection "DisableApiTermination" "disableApiTermination"].

(** [value[mapping.instance_key]['Value']] of a freshly read attribute. *)
Definition call_value (c : Call) : M bool :=
  r ← call c;
  match r with
  | RValue b => mret b
  | _ => raise (KeyError "Value")
  end.

Definition diff_mapping (id_ : string) (params : Params) (skip : list string)
    (mapping : ParamMapper) (changes_to_apply : list ChangeRequest)
    : M (list ChangeRequest) :=
  match param_key mapping params with
  | Some wanted =>
      if bool_decide (instance_key mapping ∉ skip) then
        value ← call_value
          (describe_instance_attribute (attribute_name mapping) id_);
        if negb (Bool.eqb value wanted) then
          mret (changes_to_apply ++ [mkChange id_ (instance_key mapping) wanted])
        else mret changes_to_apply
      else mret changes_to_apply
  | None => mret changes_to_apply
  end.

Definition diff_instance_and_params (instance : Instance) (params : Params)
    (skip : option (list string)) : M (list ChangeRequest) :=
  let skip := default [] skip in
  let id_ := InstanceId instance in
  changes_to_apply ← for_each param_mappings (diff_mapping id_ params skip) [];
  match network params ≫= source_dest_check with
  | Some check =>
      if negb (Bool.eqb (SourceDestCheck instance) check) then
        mret (changes_to_apply ++ [mkChange id_ "SourceDestCheck" check])
      else mret changes_to_apply
  | None => mret changes_to_apply
  end.

(** ** Network interface reconciler *)

(** The identifier that [change_network_attachments] reads off a desired
    interface: a dictionary with an ['id'] key or a bare string. *)
Definition interface_ref_id (inty : InterfaceRef) : option string :=
  match inty with
  | interface_dict d => interface_id d
  | interface_text eni => Some eni
  end.

Definition attach_one (instance : Instance) (new_ids : list string)
    (eni_id : string) (_ : unit) : M unit :=
  match index new_ids eni_id with
  | Some idx =>
      call (attach_network_interface idx (InstanceId instance) eni_id);;
      mret tt
  | None => raise (ValueError (eni_id +:+ " is not in list"))
  end.

Definition change_network_attachments (instance : Instance) (params : Params)
    : M bool :=
  match network params ≫= interfaces with
  | Some ints =>
      let new_ids := omap interface_ref_id ints in
      let old_ids := NetworkInterfaces instance in
      let to_attach : gset string := list_to_set new_ids ∖ list_to_set old_ids in
      for_each (elements to_attach) (attach_one instance new_ids) tt;;
      mret (bool_decide (size to_attach ≠ 0))
  | None => mret false
  end.

(** ** Default VPC and subnet *)

(** The filter helper wraps a value that is not a list into a list of one
    value. *)
Definition get_default_vpc : M (option Vpc) :=
  jittered_backoff
    (r ← call (describe_vpcs
                 (ansible_dict_to_boto3_filter_list {[ "isDefault" := ["true"] ]}));
     match r with
     | RVpcs (vpc :: _) => mret (Some vpc)
     | _ => mret None
     end).

(** [sorted(l, key=...)] is stable: an element goes after those whose key is
    not larger. *)
Fixpoint insert_sorted {A} (key : A → string) (x : A) (l : list A) : list A :=
  match l with
  | [] => [x]
  | y :: rest =>
      if String.ltb (key x) (key y) then x :: y :: rest
      else y :: insert_sorted key x rest
  end.

Definition sorted {A} (l : list A) (key : A → string) : list A :=
  foldl (λ acc x, insert_sorted key x acc) [] l.

Definition get_default_subnet_body (vpc : Vpc)
    (availability_zone : option string) : M (option Subnet) :=
  r ← call (describe_subnets_filters
              (ansible_dict_to_boto3_filter_list
                 {[ "vpc-id" := [VpcId vpc];
                    "state" := ["available"];
                    "default-for-az" := ["true"] ]}));
  match r with
  | RSubnets ((_ :: _) as subnets) =>
      let requested :=
        az ← availability_zone;
        let subs_by_az :=
          dict_of_pairs ((λ subnet, (AvailabilityZone subnet, subnet)) <$> subnets) in
        subs_by_az !! az in
      match requested with
      | Some subnet => mret (Some subnet)
      | None =>
          let by_az := sorted subnets AvailabilityZone in
          match by_az with
          | first :: _ => mret (Some first)
          | [] => raise IndexError
          end
      end
  | _ => mret None
  end.

Definition get_default_subnet (vpc : Vpc) (availability_zone : option string)
    : M (option Subnet) :=
  jittered_backoff (get_default_subnet_body vpc availability_zone).

(** ** Spec builder *)

Definition tower_callback_script (tower_conf : TowerCallback) (windows : bool)
    (passwd : option string) : M string :=
  if windows && is_not_None passwd then mret (powershell_script passwd)
  else if windows && negb (is_not_None passwd) then mret (powershell_script None)
  else
    let missing p : M string :=
      sys_exit (fail_json [("msg", JStr
        ("Incomplete tower_callback configuration. tower_callback." +:+ p
         +:+ " not set."))]) in
    match tower_address tower_conf with
    | None => missing "tower_address"
    | Some address =>
        match job_template_id tower_conf with
        | None => missing "job_template_id"
        | Some template =>
            match host_config_key tower_conf with
            | None => missing "host_config_key"
            | Some key => mret (callback_script address template key)
            end
        end
    end.

Definition build_volume_spec (params : Params) : list (gmap string string) :=
  snake_dict_to_camel_dict <$> default [] (volumes params).

(** [discover_security_groups] as [build_network_spec] calls it, with a
    [subnet_id] whose VPC scopes the lookup. *)
Definition discover_security_groups (group : option string)
    (groups : option (list string)) (subnet_id : string)
    : M (list SecurityGroup) :=
  let searching :=
    "Error while searching for subnet " +:+ subnet_id +:+ " parent VPC." in
  sub ← try_except (call (describe_subnets_ids [subnet_id]))
    (λ e, match e with
          | ClientError code =>
              Some (if String.eqb code "InvalidGroup.NotFound" then
                      (* [module.fail_json("...")]: the message is positional *)
                      raise (TypeError "fail_json() takes exactly 1 argument (2 given)")
                    else fail_json_aws e searching)
          | BotoCoreError | WaiterError | WaiterConfigError =>
              Some (fail_json_aws e searching)
          | _ => None
          end);
  parent_vpc_id ←
    match sub with
    | RSubnets (s :: _) => mret (SubnetVpcId s)
    | RSubnets [] => raise IndexError
    | _ => raise (KeyError "Subnets")
    end;
  let vpc := ("vpc-id", [parent_vpc_id]) in
  let id_filters := [vpc] in
  let name_filters := [vpc] in
  let '(id_filters, name_filters) :=
    match group with
    | Some ((String _ _) as g) =>
        (if startswith g "sg-" then id_filters ++ [("group-id", [g])] else id_filters,
         name_filters ++ [("group-name", [g])])
    | _ => (id_filters, name_filters)
    end in
  let '(id_filters, name_filters) :=
    match groups with
    | Some ((_ :: _) as gs) =>
        (match List.filter (λ g, startswith g "sg-") gs with
         | [] => id_filters
         | sgs => id_filters ++ [("group-id", sgs)]
         end,
         name_filters ++ [("group-name", gs)])
    | _ => (id_filters, name_filters)
    end in
  found_groups ← for_each [id_filters; name_filters]
    (λ f_set found,
       if bool_decide (1 < length f_set) then
         r ← call (describe_security_groups f_set);
         match r with
         | RGroups l => mret (found ++ l)
         | _ => raise (KeyError "SecurityGroups")
         end
       else mret found) [];
  mret (map_to_list (dict_of_pairs ((λ g, (GroupId g, g)) <$> found_groups))).*2.

(** One entry of [network.interfaces], at position [idx]. *)
Definition build_interface_spec (params : Params) (idx : nat)
    (interface_params : InterfaceRef) : M InterfaceSpec :=
  let interface_params :=
    match interface_params with
    | interface_text eni => mkInterfaceParams (Some eni) None None None None None
    | interface_dict d => d
    end in
  match interface_id interface_params with
  | Some eni =>
      mret (mkInterfaceSpec idx None None None None (Some eni) None None None)
  | None =>
      let subnet :=
        match interface_subnet_id interface_params with
        | Some s => Some s
        | None => vpc_subnet_id params
        end in
      if truthy_str subnet then
        mret (mkInterfaceSpec idx None subnet
                (if truthy_str (interface_private_ip_address interface_params)
                 then interface_private_ip_address interface_params else None)
                None None
                (Some (default true (delete_on_termination interface_params)))
                (if truthy_list (ipv6_addresses interface_params)
                 then ipv6_addresses interface_params else None)
                (if truthy_str (description interface_params)
                 then description interface_params else None))
      else
        (* [interface_params['id']] is read and the key is absent *)
        raise (KeyError "id")
  end.

Fixpoint build_interface_specs (params : Params) (idx : nat)
    (l : list InterfaceRef) : M (list InterfaceSpec) :=
  match l with
  | [] => mret []
  | interface_params :: rest =>
      spec ← build_interface_spec params idx interface_params;
      specs ← build_interface_specs params (S idx) rest;
      mret (spec :: specs)
  end.

Definition build_network_spec (params : Params) : M (list InterfaceSpec) :=
  let network := default empty_network (network params) in
  if negb (truthy_list (interfaces network)) then
    subnet ←
      (if truthy_str (vpc_subnet_id params) then
         mret (default "" (vpc_subnet_id params))
       else
         default_vpc ← get_default_vpc;
         match default_vpc with
         | None =>
             sys_exit (fail_json [("msg", JStr
               "No default subnet could be found - you must include a VPC subnet ID (vpc_subnet_id parameter) to create an instance")])
         | Some vpc =>
             sub ← get_default_subnet vpc None;
             match sub with
             | Some sub => mret (SubnetId sub)
             | None => raise (TypeError "'NoneType' object is not subscriptable")
             end
         end);
    groups ←
      (if truthy_str (security_group params) || truthy_list (security_groups params)
       then
         groups ← discover_security_groups (security_group params)
                    (security_groups params) subnet;
         mret (Some (GroupId <$> groups))
       else mret None);
    mret [mkInterfaceSpec 0 (assign_public_ip network) (Some subnet)
            (if truthy_str (private_ip_address network)
             then private_ip_address network else None)
            groups None None None None]
  else build_interface_specs params 0 (default [] (interfaces network)).

Definition build_top_level_options (params : Params) : M TopLevelOptions :=
  let '(ImageId, RamdiskId, KernelId) :=
    if truthy_str (image_id params) then (image_id params, None, None)
    else match image params with
         | Some image => (image_dict_id image, ramdisk image, kernel image)
         | None => (None, None, None)
         end in
  (if negb (truthy_str ImageId) && negb (truthy_launch_template (launch_template params))
   then sys_exit (fail_json [("msg", JStr
     "You must include an image_id or image.id parameter to create an instance, or use a launch_template.")])
   else mret tt);;
  UserData ←
    match user_data params with
    | Some data => mret (Some data)
    | None =>
        match tower_callback params with
        | Some conf =>
            script ← tower_callback_script conf (windows conf) (set_password conf);
            mret (Some script)
        | None => mret None
        end
    end;
  LaunchTemplate ←
    match launch_template params with
    | Some lt =>
        (if negb (truthy_str (launch_template_id lt))
            || truthy_str (launch_template_name lt)
         then sys_exit (fail_json [("msg", JStr
           "Could not create instance with launch template. Either launch_template.name or launch_template.id parameters are required")])
         else mret tt);;
        mret (Some (mkLaunchTemplateSpec (launch_template_id lt)
                      (launch_template_name lt) (launch_template_version lt)))
    | None => mret None
    end;
  mret (mkTopLevelOptions ImageId RamdiskId KernelId (key_name params) UserData
          LaunchTemplate
          (if default false (detailed_monitoring params) then Some true else None)
          (cpu_credit_specification params)
          (tenancy params)
          (default empty_network (network params)).(network_ebs_optimized)
          (if truthy_str (instance_initiated_shutdown_behavior params)
           then instance_initiated_shutdown_behavior params else None)
          (termination_protection params)).

Definition build_instance_tags (params : Params) : M (list TagSpecification) :=
  let tags :=
    match name params with
    | Some name => Some (<["Name" := name]> (default ∅ (tags params)))
    | None => tags params
    end in
  match tags with
  | Some tags =>
      mret [mkTagSpecification "volume" (ansible_dict_to_boto3_tag_list tags);
            mkTagSpecification "instance" (ansible_dict_to_boto3_tag_list tags)]
  | None =>
      (* the helper iterates over [tags.items()] *)
      raise (AttributeError "'NoneType' object has no attribute 'items'")
  end.

Definition determine_iam_role (name_or_arn : string) : M string :=
  if match_instance_profile_arn name_or_arn then mret name_or_arn
  else
    try_except
      (role ← call (get_instance_profile name_or_arn);
       match role with
       | RStr arn => mret arn
       | _ => raise (KeyError "InstanceProfile")
       end)
      (λ e, match e with
            | ClientError code =>
                Some (if String.eqb code "NoSuchEntity" then
                        fail_json_aws e ("Could not find instance_role " +:+ name_or_arn)
                      else
                        fail_json_aws e
                          ("An error occurred while searching for instance_role "
                           +:+ name_or_arn +:+ ". Please try supplying the full ARN."))
            | _ => None
            end).

(** [determine_iam_role(params.get('iam_profile'))]: the function has two
    positional parameters, [name_or_arn] and [iam], and the call gives one;
    Python raises before the body runs. *)
Definition determine_iam_role_one_argument (name_or_arn : option string)
    : M string :=
  raise (TypeError "determine_iam_role() takes exactly 2 arguments (1 given)").

Definition build_run_instance_spec (params : Params) : M RunInstanceSpec :=
  token ← call uuid4_hex;
  ClientToken ← match token with
                | RStr hex => mret hex
                | _ => raise (AttributeError "hex")
                end;
  NetworkInterfaces ← build_network_spec params;
  let BlockDeviceMappings := build_volume_spec params in
  options ← build_top_level_options params;
  TagSpecifications ← build_instance_tags params;
  IamInstanceProfile ←
    (if truthy_str (instance_role params) then
       (* [params.get('iam_profile')]: the argument spec has no such key *)
       arn ← determine_iam_role_one_argument None;
       mret (Some arn)
     else mret None);
  mret (mkRunInstanceSpec ClientToken 1 1 NetworkInterfaces BlockDeviceMappings
          options TagSpecifications IamInstanceProfile (instance_type params)).

End Module.

(** ** Reconciliation of existing instances *)

Section Orchestrator.

Variable ec2 : Provider.
Variable module_params : Params.
Variable transient : string → bool.
Variable retries : nat.

Definition warn_if_public_ip_assignment_changed (instance : Instance) : M unit :=
  match default empty_network (network module_params) with
  | {| assign_public_ip := None |} => mret tt
  | {| assign_public_ip := Some assign_public_ip |} =>
      let public_dns_name := negb (String.eqb (PublicDnsName instance) "") in
      if (public_dns_name && negb assign_public_ip)
         || (assign_public_ip && negb public_dns_name)
      then
        warn ("Unable to modify public ip assignment to "
              +:+ (if assign_public_ip then "True" else "False")
              +:+ " for instance " +:+ InstanceId instance
              +:+ ". Whether or not to assign a public IP is determined during instance creation.")
      else mret tt
  end.

(** The body of the loop that hands every change to
    [ec2.modify_instance_attribute]. *)
Definition modify_one (c : ChangeRequest) (_ : unit) : M unit :=
  call ec2 (modify_instance_attribute c);; mret tt.

Definition handle_existing (existing_matches : list Instance) (changed : bool)
    (state : string) : M unit :=
  (if bool_decide (state ∈ ["running"; "started"])
      && bool_decide
           (List.filter (λ i, negb (String.eqb (StateName i) "running"))
              existing_matches ≠ [])
   then
     '(ins_changed, failed, instances) ←
       change_instance_state ec2 module_params transient retries
         (filters module_params) "RUNNING";
     sys_exit (exit_json
       [("changed", JBool (bool_decide (size ins_changed ≠ 0) || changed));
        ("instances", JInstances (pretty_instance <$> instances));
        ("instance_ids", JIds (InstanceId <$> instances))])
   else mret tt);;
  match existing_matches with
  | [] => raise IndexError
  | first :: _ =>
      changes ← diff_instance_and_params ec2 first module_params None;
      for_each changes modify_one tt;;
      attached ← change_network_attachments ec2 first module_params;
      let changed := changed || attached in
      altered ← find_instances ec2 (Some (InstanceId <$> existing_matches)) None;
      sys_exit (exit_json
        [("changed", JBool (bool_decide (length changes ≠ 0) || changed));
         ("instances", JInstances (pretty_instance <$> altered));
         ("instance_ids", JIds (InstanceId <$> altered));
         ("changes", JChanges changes)])
  end.

End Orchestrator.

(** * Specification vocabulary and sample data *)

(** ** Runs *)

(** The events that a run from [h] to [h'] added. *)
Definition added (h h' : list Event) : list Event := drop (length h) h'.

(** Unfolds the monad, and runs a computation symbolically with a case for
    each kind of answer of the provider. *)
Ltac unfold_M :=
  cbv beta iota zeta delta
    [mbind mret M_mbind M_mret M_bind M_ret raise sys_exit warn].


Ltac run_M :=
  repeat (unfold_M; cbv beta zeta delta [call];
          try match goal with
              | |- context [match answer ?r with _ => _ end] =>
                  destruct (answer r) as [?|?|?]
              end).

(** ** Sample providers *)

(** A provider that knows no instance and accepts every request. *)
Definition quiet_provider : Provider := λ _ c,
  match c with
  | describe_instances_ids _ | describe_instances_filters _ => RInstances []
  | terminate_instances _ | stop_instances _ | start_instances _ => RIds []
  | describe_instance_attribute _ _ => RValue false
  | describe_subnets_filters _ | describe_subnets_ids _ => RSubnets []
  | describe_vpcs _ => RVpcs []
  | describe_security_groups _ => RGroups []
  | get_instance_profile _ | uuid4_hex => RStr ""
  | _ => RDone
  end.

(** ** Resource locator *)

(** The dictionary that the loop of [find_instances] leaves behind. *)
Fixpoint rename_keys (keys : list string) (filters : gmap string (list string))
    : gmap string (list string) :=
  match keys with
  | [] => filters
  | key :: rest =>
      match filters !! key with
      | Some v => rename_keys rest (<[normalize_key key := v]> (delete key filters))
      | None => filters
      end
  end.

(** No two keys end under the same submitted key. *)
Definition collision_free (keys : list string) : Prop :=
  NoDup (normalize_key <$> keys).


(** ** Sample configurations *)

(** The defaults of the argument spec, around the entries that the examples
    set. *)
Definition sample_params (image_id vpc_subnet_id instance_role name : option string)
    (launch_template : option LaunchTemplate) (network : option Network)
    (filters : option (gmap string (list string))) : Params :=
  {| state := "present"; wait := true; wait_timeout := 600;
     image := None; image_id := image_id; instance_type := "t2.micro";
     user_data := None; tower_callback := None; ebs_optimized := None;
     vpc_subnet_id := vpc_subnet_id; availability_zone := None;
     security_groups := Some []; security_group := None;
     instance_role := instance_role; name := name; tags := None;
     purge_tags := false; filters := filters;
     launch_template := launch_template; key_name := None;
     cpu_credit_specification := None; tenancy := None;
     instance_initiated_shutdown_behavior := None;
     termination_protection := None; detailed_monitoring := None;
     instance_ids := []; network := network; volumes := None |}.

Definition sample_instance (id state : string) : Instance :=
  mkInstance id state [] [] true "".

(** Error codes that the sample runs retry. *)
Definition throttling (code : string) : bool := String.eqb code "Throttling".

(** ** Default subnet *)

(** The request of [get_default_subnet]: the available default-for-AZ
    subnets of the VPC. *)
Definition default_subnets_request (vpc : Vpc) : Call :=
  describe_subnets_filters
    (ansible_dict_to_boto3_filter_list
       {[ "vpc-id" := [VpcId vpc];
          "state" := ["available"];
          "default-for-az" := ["true"] ]}).

(** [a] is not after [b] in the lexicographic order of strings. *)
Definition az_le (a b : string) : Prop := String.leb a b = true.

(** The head of a list is a least element of a collection. *)
Definition least_first {A} (key : A → string) (acc seen : list A) : Prop :=
  match acc with
  | [] => seen = []
  | m :: _ => m ∈ seen ∧ ∀ s, s ∈ seen → az_le (key m) (key s)
  end.

(** A provider whose only answer of interest is a list of subnets. *)
Definition subnets_provider (subnets : list Subnet) : Provider := λ _ c,
  match c with
  | describe_subnets_filters _ => RSubnets subnets
  | _ => RDone
  end.

Definition sample_subnets : list Subnet :=
  [mkSubnet "subnet-c" "us-east-1c" "vpc-1";
   mkSubnet "subnet-a" "us-east-1a" "vpc-1";
   mkSubnet "subnet-b" "us-east-1b" "vpc-1"].

(** ** Tag reconciler *)

(** The observed tags of an instance and the delta to the desired tags, as
    [manage_tags] computes them. *)
Definition observed_tags (match_ : Instance) : gmap string string :=
  boto3_tag_list_to_ansible_dict (Tags match_).

Definition tag_delta (match_ : Instance) (new_tags : gmap string string)
    (purge_tags : bool) : gmap string string * gset string :=
  compare_aws_tags (observed_tags match_) new_tags purge_tags.

(** The tag list that goes with a deletion: every key to delete with the
    value observed for it. *)
Definition deleted_tags (old_tags : gmap string string)
    (tags_to_delete : gset string) : list (string * option string) :=
  ansible_dict_to_boto3_tag_list
    (set_to_map (λ k, (k, old_tags !! k)) tags_to_delete
       : gmap string (option string)).

(** A deletion names the instance and carries that list. *)
Definition deletes_current_values (match_ : Instance)
    (tags : list (string * option string)) (e : Event) : Prop :=
  ∀ resources tags' r, e = Called (delete_tags resources tags') r →
    resources = [InstanceId match_] ∧ tags' = tags.

(** A provider that accepts every request. *)
Definition tags_provider : Provider := λ _ _, RDone.

(** An instance tagged [env=dev] and [owner=ops]. *)
Definition tagged_instance : Instance :=
  mkInstance "i-0a1" "running" [("env", "dev"); ("owner", "ops")] [] true "".

(** ** Network interface reconciler *)



(** A configuration that asks for three interfaces, and an instance that
    has the second of them. *)
Definition sample_interfaces : list InterfaceRef :=
  [interface_text "eni-a";
   interface_dict (mkInterfaceParams (Some "eni-b") None None None None None);
   interface_text "eni-c"].

Definition interfaces_params : Params :=
  sample_params None None None None None
    (Some (mkNetwork None None (Some sample_interfaces) None None)) None.

Definition interfaces_instance : Instance :=
  mkInstance "i-0a1" "running" [] ["eni-b"] true "".




(** ** State transition controller *)

(** In a description by filters, [id] is listed, and only as [stopping]. *)
Definition observed_stopping (id : string) (e : Event) : Prop :=
  match e with
  | Called (describe_instances_filters _) (RInstances l) =>
      id ∈ InstanceId <$> l
      ∧ Forall (λ inst, InstanceId inst = id → StateName inst = "stopping") l
  | _ => True
  end.

#[global] Instance observed_stopping_dec id e : Decision (observed_stopping id e).
Proof. destruct e as [[] []|]; simpl; apply _. Defined.

(** A stop request leaves [id] out, and a wait includes it. *)
Definition spares_and_awaits (id : string) (e : Event) : Prop :=
  match e with
  | Called (stop_instances ids) _ => id ∉ ids
  | Called (waiter_wait _ ids _ _) _ => id ∈ ids
  | _ => True
  end.

(** The filters that [main] sets for the state [stopped]. *)
Definition stopped_filters : gmap string (list string) :=
  {[ "instance-state-name" := ["stopping"; "pending"; "running"] ]}.

(** One instance, already stopping. *)
Definition stopping_provider : Provider := λ _ c,
  match c with
  | describe_instances_ids _ | describe_instances_filters _ =>
      RInstances [sample_instance "i-0a1" "stopping"]
  | terminate_instances ids | stop_instances ids | start_instances ids => RIds ids
  | _ => RDone
  end.

(** Two instances, one running and one already stopping. *)
Definition mixed_provider : Provider := λ _ c,
  match c with
  | describe_instances_ids _ | describe_instances_filters _ =>
      RInstances [sample_instance "i-0a1" "running";
                  sample_instance "i-0b2" "stopping"]
  | terminate_instances ids | stop_instances ids | start_instances ids => RIds ids
  | _ => RDone
  end.

(** One running instance that the provider refuses to stop and agrees to
    start. *)
Definition unstoppable_provider : Provider := λ _ c,
  match c with
  | describe_instances_ids _ | describe_instances_filters _ =>
      RInstances [sample_instance "i-0a1" "running"]
  | stop_instances _ => RRaise (ClientError "UnsupportedOperation")
  | terminate_instances ids | start_instances ids => RIds ids
  | _ => RDone
  end.

Definition running_filters : gmap string (list string) :=
  {[ "instance-state-name" := ["pending"; "running"; "stopping"; "stopped"] ]}.

(** ** More sample data *)

(** A provider that reports both mutable attributes as [false]. *)
Definition attributes_provider : Provider := λ _ c,
  match c with
  | describe_instance_attribute _ _ => RValue false
  | _ => RDone
  end.

(** A configuration that wants EBS optimization, termination protection and
    no source/destination check. *)
Definition attributes_params : Params :=
  {| state := "present"; wait := true; wait_timeout := 600;
     image := None; image_id := Some "ami-0abc"; instance_type := "t2.micro";
     user_data := None; tower_callback := None; ebs_optimized := Some true;
     vpc_subnet_id := Some "subnet-1"; availability_zone := None;
     security_groups := Some []; security_group := None;
     instance_role := None; name := Some "web"; tags := None;
     purge_tags := false; filters := None;
     launch_template := None; key_name := None;
     cpu_credit_specification := None; tenancy := None;
     instance_initiated_shutdown_behavior := None;
     termination_protection := Some true; detailed_monitoring := None;
     instance_ids := [];
     network := Some (mkNetwork None None None (Some false) None);
     volumes := None |}.

(** A provider of identifiers and of an instance profile. *)
Definition iam_provider : Provider := λ _ c,
  match c with
  | get_instance_profile "web-role" =>
      RStr "arn:aws:iam::123456789012:instance-profile/web-role"
  | get_instance_profile _ => RRaise (ClientError "NoSuchEntity")
  | uuid4_hex => RStr "0f1e2d3c4b5a69788796a5b4c3d2e1f0"
  | _ => RDone
  end.

(** The script texts, left blank in the sample runs. *)
Definition no_powershell_script (_ : option string) : string := "".
Definition no_callback_script (_ _ _ : string) : string := "".

(** A configuration with a launch template given by its identifier, user
    data and an incomplete callback descriptor. *)
Definition template_params : Params :=
  {| state := "present"; wait := true; wait_timeout := 600;
     image := None; image_id := None; instance_type := "t2.micro";
     user_data := Some "#!/bin/sh";
     tower_callback := Some (mkTowerCallback None None None false None);
     ebs_optimized := None;
     vpc_subnet_id := Some "subnet-1"; availability_zone := None;
     security_groups := Some []; security_group := None;
     instance_role := None; name := Some "web";
     tags := Some {[ "env" := "prod"; "Name" := "old" ]};
     purge_tags := false; filters := None;
     launch_template := Some (mkLaunchTemplate (Some "lt-0abc") None (Some "3"));
     key_name := None;
     cpu_credit_specification := None; tenancy := None;
     instance_initiated_shutdown_behavior := None;
     termination_protection := None; detailed_monitoring := None;
     instance_ids := []; network := None; volumes := None |}.

(** An interface specification that only names an existing interface. *)
Definition attach_existing_spec (idx : nat) (eni : string) : InterfaceSpec :=
  mkInterfaceSpec idx None None None None (Some eni) None None None.

(** A provider of security groups: the same group is found by its
    identifier and by its name. *)
Definition groups_provider : Provider := λ _ c,
  match c with
  | describe_subnets_ids _ => RSubnets [mkSubnet "subnet-1" "us-east-1a" "vpc-1"]
  | describe_security_groups _ =>
      RGroups [mkSecurityGroup "sg-1" "web"; mkSecurityGroup "sg-2" "sg-1"]
  | _ => RDone
  end.

(** ** Histories *)

(** Every event that [m] adds to the history satisfies [Q]. *)
Definition emits {A} (Q : Event → Prop) (m : M A) : Prop :=
  ∀ h, ∃ t, (m h).2 = h ++ t ∧ Forall Q t.

Definition describes_instances (e : Event) : Prop :=
  match e with
  | Called (describe_instances_ids _) _
  | Called (describe_instances_filters _) _ => True
  | _ => False
  end.

(** What [change_instance_state] may do towards [desired_state]: describe
    instances, wait, warn, and ask for the one transition that the state
    names, for one instance at a time. *)
Definition transition_for (desired_state : string) (e : Event) : Prop :=
  match e with
  | Called (terminate_instances ids) _ =>
      desired_state = "TERMINATED" ∧ length ids = 1
  | Called (stop_instances ids) _ => desired_state = "STOPPED" ∧ length ids = 1
  | Called (start_instances ids) _ => desired_state = "RUNNING" ∧ length ids = 1
  | Called (describe_instances_ids _) _
  | Called (describe_instances_filters _) _
  | Called (waiter_wait _ _ _ _) _
  | Warned _ => True
  | _ => False
  end.

(** A request to terminate, to stop or to start instances. *)
Definition transition_request (c : Call) : Prop :=
  match c with
  | terminate_instances _ | stop_instances _ | start_instances _ => True
  | _ => False
  end.

(** In the events [t] the provider acknowledged a transition of [id]. *)
Definition acknowledged (t : list Event) (id : string) : Prop :=
  ∃ c l, Called c (RIds l) ∈ t ∧ transition_request c ∧ id ∈ l.

(** ** Reconciliation of existing instances *)

(** A request that reads or modifies an attribute of an instance, or that
    attaches an interface to one, names the instance [id]. *)
Definition reconciles (id : string) (e : Event) : Prop :=
  match e with
  | Called (modify_instance_attribute c) _ => change_InstanceId c = id
  | Called (describe_instance_attribute _ i) _ => i = id
  | Called (attach_network_interface _ i _) _ => i = id
  | _ => True
  end.

(** A provider with one stopped instance, which it agrees to start. *)
Definition starting_provider : Provider := λ _ c,
  match c with
  | describe_instances_ids _ | describe_instances_filters _ =>
      RInstances [sample_instance "i-0a1" "stopped"]
  | start_instances ids => RIds ids
  | _ => RDone
  end.

(** A provider whose default VPC has no default subnet. *)
Definition empty_vpc_provider : Provider := λ _ c,
  match c with
  | describe_vpcs _ => RVpcs [mkVpc "vpc-1"]
  | describe_subnets_filters _ => RSubnets []
  | _ => RDone
  end.

(** ** Requests allowed for a desired state *)

(** What [ensure_instance_state] may ask of the provider for [state]. *)
Definition state_allows (state : string) (e : Event) : Prop :=
  match e with
  | Called (terminate_instances _) _ => state ∈ ["absent"; "terminated"]
  | Called (stop_instances _) _ => state ∈ ["restarted"; "rebooted"; "stopped"]
  | Called (start_instances _) _ =>
      state ∈ ["running"; "started"; "restarted"; "rebooted"]
  | Called (describe_instances_ids _) _
  | Called (describe_instances_filters _) _
  | Called (waiter_wait _ _ _ _) _
  | Warned _ => True
  | _ => False
  end.

(** A provider whose waiters always time out. *)
Definition slow_provider : Provider := λ _ c,
  match c with
  | waiter_wait _ _ _ _ => RRaise WaiterError
  | _ => RDone
  end.

(** * Properties of the embedded code *)

(** ** Reasoning about runs *)

Lemma M_bind_Ret {A B} (m : M A) (k : A → M B) h b h' :
  (m ≫= k) h = (Ret b, h') → ∃ a h1, m h = (Ret a, h1) ∧ k a h1 = (Ret b, h').
Proof. unfold_M. destruct (m h) as [[a| |] h1]; [eauto|done|done]. Qed.

Lemma M_bind_run {A B} (m : M A) (k : A → M B) h :
  (m ≫= k) h
  = match m h with
    | (Ret a, h1) => k a h1
    | (Raise e, h1) => (Raise e, h1)
    | (Exit x, h1) => (Exit x, h1)
    end.
Proof. reflexivity. Qed.

Lemma M_bind_mret_snd {A B} (m : M A) (f : A → B) h :
  ((m ≫= λ a, mret (f a)) h).2 = (m h).2.
Proof. rewrite M_bind_run. by destruct (m h) as [[a|e|x] h1]. Qed.

Lemma call_run ec2 c h :
  call ec2 c h = (answer (ec2 h c), h ++ [Called c (ec2 h c)]).
Proof. reflexivity. Qed.

Lemma added_app h t : added h (h ++ t) = t.
Proof. unfold added. by rewrite drop_app_length. Qed.

(** ** Backoff executor *)

(** An attempt that does not end in a transient provider error is the
    last one. *)
Lemma backoff_done {A} transient n (f : M A) h :
  (∀ code, (f h).1 = Raise (ClientError code) → transient code = false) →
  backoff transient n f h = f h.
Proof.
  intros Hdone. destruct n as [|n]; [done|]. simpl.
  destruct (f h) as [[a|[code| | | | | | | |]|x] h'] eqn:Hf; try done.
  by rewrite (Hdone code).
Qed.

Lemma backoff_Ret {A} transient n (f : M A) h a h' :
  f h = (Ret a, h') → backoff transient n f h = (Ret a, h').
Proof. intros Hf. rewrite backoff_done; [done|]. by rewrite Hf. Qed.

(** The outcome of a retried call is the outcome of one attempt, made after
    the attempts that failed. *)
Lemma backoff_last_attempt {A} transient n (f : M A) :
  (∀ h, ∃ t, (f h).2 = h ++ t) →
  ∀ h, ∃ t0, backoff transient n f h = f (h ++ t0).
Proof.
  intros Hext. induction n as [|n IH]; intros h.
  { exists []. by rewrite app_nil_r. }
  simpl. destruct (f h) as [[a|[code| | | | | | | |]|x] h'] eqn:Hf;
    try (exists []; by rewrite app_nil_r, Hf).
  destruct (transient code); [|exists []; by rewrite app_nil_r, Hf].
  destruct (Hext h) as [t Ht]. rewrite Hf in Ht. simpl in Ht. subst h'.
  destruct (IH (h ++ t)) as [t0 Ht0]. exists (t ++ t0). by rewrite Ht0, app_assoc.
Qed.

(** The events of a retried call are those of its attempts, one after the
    other: what holds of the events of every attempt, and of traces put end
    to end, holds of them. *)
Lemma backoff_added {A} transient n (f : M A) (Φ : list Event → Prop) :
  (∀ t1 t2, Φ t1 → Φ t2 → Φ (t1 ++ t2)) →
  (∀ h, ∃ t, (f h).2 = h ++ t ∧ Φ t) →
  ∀ h, ∃ t, (backoff transient n f h).2 = h ++ t ∧ Φ t.
Proof.
  intros Happ Hf. induction n as [|n IH]; intros h; [apply Hf|].
  simpl. destruct (Hf h) as (t & Ht & HQ).
  destruct (f h) as [[a|[code| | | | | | | |]|x] h']; simpl in *; eauto.
  destruct (transient code); simpl; eauto.
  subst h'. destruct (IH (h ++ t)) as (t' & -> & HQ').
  exists (t ++ t'). rewrite app_assoc. eauto.
Qed.

Lemma backoff_added_Forall {A} transient n (f : M A) (Q : Event → Prop) :
  (∀ h, ∃ t, (f h).2 = h ++ t ∧ Forall Q t) →
  ∀ h, ∃ t, (backoff transient n f h).2 = h ++ t ∧ Forall Q t.
Proof.
  apply backoff_added. intros t1 t2 H1 H2. apply Forall_app. by split.
Qed.



(** ** Resource locator: key normalization *)

Lemma prefix_replace old new p s :
  Forall (λ c, c ≠ old ∧ c ≠ new) (list_ascii_of_string p) →
  String.prefix p (replace old new s) = String.prefix p s.
Proof.
  revert s. induction p as [|a p IH]; intros s Hp.
  { by destruct s. }
  apply Forall_cons in Hp as [[Hold Hnew] Hp].
  destruct s as [|b s]; simpl; [done|].
  destruct (Ascii.eqb_spec b old) as [->|Hb].
  - destruct (ascii_dec a new), (ascii_dec a old); congruence.
  - destruct (ascii_dec a b); [by apply IH | done].
Qed.

Lemma replace_keeps_tag_prefix key :
  startswith (replace "_" "-" key) "tag:" = startswith key "tag:".
Proof. apply prefix_replace. repeat constructor; discriminate. Qed.

Lemma replace_idem old new s :
  old ≠ new → replace old new (replace old new s) = replace old new s.
Proof.
  intros Hne. induction s as [|c s IH]; simpl; [done|]. rewrite IH. f_equal.
  destruct (Ascii.eqb_spec c old) as [->|Hc].
  - destruct (Ascii.eqb_spec new old); congruence.
  - destruct (Ascii.eqb_spec c old); congruence.
Qed.

(** Every underscore becomes a hyphen and every other character stays. *)
Lemma replace_underscore_get s n :
  String.get n (replace "_" "-" s)
  = (λ c, if Ascii.eqb c "_" then "-"%char else c) <$> String.get n s.
Proof.
  revert n. induction s as [|c s IH]; intros n; simpl; [done|].
  destruct n; [done | apply IH].
Qed.

Lemma normalize_key_idem key : normalize_key (normalize_key key) = normalize_key key.
Proof.
  unfold normalize_key. destruct (startswith key "tag:") eqn:Htag.
  - by rewrite Htag.
  - rewrite replace_keeps_tag_prefix, Htag. by apply replace_idem.
Qed.

(** The loop never meets a missing key: it ranges over keys of the
    dictionary, each once, and renaming one key leaves the others in place. *)
Lemma normalize_filter_keys_rename keys : ∀ filters h,
  NoDup keys → (∀ k, k ∈ keys → is_Some (filters !! k)) →
  normalize_filter_keys keys filters h = (Ret (rename_keys keys filters), h).
Proof.
  induction keys as [|key rest IH]; intros filters h Hnd Hin; [done|].
  apply NoDup_cons in Hnd as [Hkey Hnd].
  destruct (Hin key) as [v Hv]; [set_solver|].
  assert (∀ k, k ∈ rest →
            is_Some ((<[normalize_key key := v]> (delete key filters)) !! k)) as Hrest.
  { intros k Hk. destruct (decide (normalize_key key = k)) as [->|Hne].
    - rewrite lookup_insert_eq. eauto.
    - rewrite lookup_insert_ne, lookup_delete_ne by set_solver. apply Hin. set_solver. }
  simpl. rewrite Hv. unfold normalize_key in *.
  destruct (startswith key "tag:"); simpl.
  - rewrite insert_delete_id in * by done. apply IH; [done|]. intros; apply Hin; set_solver.
  - unfold mbind, M_mbind, M_bind, dict_pop. rewrite Hv. simpl. by apply IH.
Qed.

Lemma rename_keys_lookup keys : ∀ (filters : gmap string (list string)),
  NoDup keys → (∀ k, k ∈ keys → is_Some (filters !! k)) →
  (∀ k1 k2, k1 ∈ keys → is_Some (filters !! k2) → k1 ≠ k2 →
     normalize_key k1 ≠ k2 ∧ (k2 ∈ keys → normalize_key k1 ≠ normalize_key k2)) →
  ∀ x v, rename_keys keys filters !! x = Some v ↔
    (∃ k, k ∈ keys ∧ normalize_key k = x ∧ filters !! k = Some v)
    ∨ ((x ∉ keys) ∧ filters !! x = Some v).
Proof.
  induction keys as [|key rest IH]; intros filters Hnd Hin Hfree x v.
  { simpl. set_solver. }
  apply NoDup_cons in Hnd as [Hkey Hnd].
  destruct (Hin key) as [w Hw]; [set_solver|].
  simpl. rewrite Hw.
  set (nk := normalize_key key).
  assert (nk ∉ rest) as Hnk.
  { intros Hr. destruct (decide (key = nk)) as [Heq|Hne]; [congruence|].
    destruct (Hfree key nk) as [Hbad _]; [set_solver|apply Hin; set_solver|done|done]. }
  assert (∀ k, k ∈ rest →
     (<[nk := w]> (delete key filters)) !! k = filters !! k) as Hsame.
  { intros k Hk. rewrite lookup_insert_ne, lookup_delete_ne; [done|set_solver|set_solver]. }
  rewrite IH; clear IH; [|done| |].
  - split.
    + intros [(k & Hk & Hx & Hv)|[Hx Hv]].
      * left. exists k. rewrite Hsame in Hv by done. set_solver.
      * destruct (decide (nk = x)) as [<-|Hne].
        { rewrite lookup_insert_eq in Hv. left. exists key. set_solver. }
        rewrite lookup_insert_ne in Hv by done.
        apply lookup_delete_Some in Hv as [Hxk Hv]. right. set_solver.
    + intros [(k & Hk & Hx & Hv)|[Hx Hv]].
      * apply elem_of_cons in Hk as [->|Hk].
        { right. subst x. fold nk. rewrite lookup_insert_eq. split; congruence. }
        left. exists k. rewrite Hsame by done. done.
      * right. split; [set_solver|].
        assert (x ≠ key) by set_solver.
        destruct (decide (nk = x)) as [Heq|Hne].
        { destruct (Hfree key x) as [Hbad _]; [set_solver|eauto|done|done]. }
        by rewrite lookup_insert_ne, lookup_delete_ne.
  - intros k Hk. rewrite Hsame by done. apply Hin. set_solver.
  - intros k1 k2 Hk1 [u Hk2] Hne.
    assert (k1 ≠ key) by set_solver.
    destruct (decide (nk = k2)) as [<-|Hnk2].
    + destruct (Hfree k1 key) as [_ Hbad]; [set_solver|eauto|done|].
      split; [apply Hbad; set_solver|]. intros _. unfold nk. rewrite normalize_key_idem.
      apply Hbad. set_solver.
    + rewrite lookup_insert_ne in Hk2 by done.
      apply lookup_delete_Some in Hk2 as [Hk2k Hk2].
      destruct (Hfree k1 k2) as [H1 H2]; [set_solver|eauto|done|].
      split; [done|]. intros Hr. apply H2. set_solver.
Qed.

(** A key of the renamed dictionary is the submitted form of a key. *)
Lemma rename_keys_normalized keys : ∀ (filters : gmap string (list string)) x,
  NoDup keys → (∀ k, k ∈ keys → is_Some (filters !! k)) →
  is_Some (rename_keys keys filters !! x) →
  x ∈ normalize_key <$> keys ∨ ((x ∉ keys) ∧ is_Some (filters !! x)).
Proof.
  induction keys as [|key rest IH]; intros filters x Hnd Hin Hx; simpl in *.
  { right. split; [set_solver|done]. }
  apply NoDup_cons in Hnd as [Hkey Hnd].
  destruct (Hin key) as [v Hv]; [set_solver|]. rewrite Hv in Hx.
  assert (∀ k, k ∈ rest →
            is_Some ((<[normalize_key key := v]> (delete key filters)) !! k)) as Hrest.
  { intros k Hk. destruct (decide (normalize_key key = k)) as [->|Hne].
    - rewrite lookup_insert_eq. eauto.
    - rewrite lookup_insert_ne, lookup_delete_ne by set_solver. apply Hin. set_solver. }
  destruct (IH _ x Hnd Hrest Hx) as [Hx'|[Hnot Hsome]]; [left; set_solver|].
  destruct (decide (normalize_key key = x)) as [<-|Hne]; [left; set_solver|].
  rewrite lookup_insert_ne in Hsome by done.
  destruct (decide (key = x)) as [<-|Hne'].
  - rewrite lookup_delete_eq in Hsome. by destruct Hsome.
  - rewrite lookup_delete_ne in Hsome by done. right. set_solver.
Qed.

(** The loop changes nothing in a dictionary whose keys are in submitted
    form already, such as one that it has renamed. *)
Lemma rename_keys_fixed keys : ∀ (filters : gmap string (list string)),
  (∀ k, k ∈ keys → normalize_key k = k) → rename_keys keys filters = filters.
Proof.
  induction keys as [|key rest IH]; intros filters Hfixed; simpl; [done|].
  destruct (filters !! key) as [v|] eqn:Hkey; [|done].
  rewrite Hfixed, insert_delete_id by (done || set_solver).
  apply IH. set_solver.
Qed.

Lemma rename_keys_idem (filters : gmap string (list string)) :
  let renamed := rename_keys (map_to_list filters).*1 filters in
  rename_keys (map_to_list renamed).*1 renamed = renamed.
Proof.
  intros renamed. apply rename_keys_fixed. intros k Hk.
  assert (is_Some (renamed !! k)) as Hsome.
  { apply list_elem_of_fmap in Hk as ([k' w] & -> & Hin).
    apply elem_of_map_to_list in Hin. eauto. }
  apply rename_keys_normalized in Hsome as [Hin|[Hnot Hsome]].
  - apply list_elem_of_fmap in Hin as (k0 & -> & _). apply normalize_key_idem.
  - destruct Hnot. destruct Hsome as [w Hw].
    apply list_elem_of_fmap. exists (k, w). by rewrite elem_of_map_to_list.
  - apply NoDup_fst_map_to_list.
  - intros k0 ([k' w] & -> & Hin)%list_elem_of_fmap.
    apply elem_of_map_to_list in Hin. eauto.
Qed.

Lemma collision_free_rename (filters : gmap string (list string)) :
  collision_free (map_to_list filters).*1 →
  ∀ x v, rename_keys (map_to_list filters).*1 filters !! x = Some v ↔
    ∃ k, normalize_key k = x ∧ filters !! k = Some v.
Proof.
  intros Hfree x v.
  assert (∀ k, k ∈ (map_to_list filters).*1 ↔ is_Some (filters !! k)) as Hkeys.
  { intros k. rewrite list_elem_of_fmap. split.
    - intros ([k' w] & -> & Hin). apply elem_of_map_to_list in Hin. eauto.
    - intros [w Hw]. exists (k, w). by rewrite elem_of_map_to_list. }
  rewrite rename_keys_lookup.
  - split.
    + intros [(k & _ & Hx & Hv)|[Hx Hv]]; [eauto|].
      destruct Hx. apply Hkeys. eauto.
    + intros (k & Hx & Hv). left. exists k. split; [apply Hkeys; eauto | done].
  - apply NoDup_fst_map_to_list.
  - intros k Hk. by apply Hkeys.
  - intros k1 k2 Hk1 Hk2 Hne. apply Hkeys in Hk2.
    assert (normalize_key k1 ≠ normalize_key k2) as Hnorm.
    { intros Heq. apply Hne.
      apply list_elem_of_lookup in Hk1 as [i1 Hi1], Hk2 as [i2 Hi2].
      assert (i1 = i2) as ->; [|congruence].
      eapply NoDup_lookup; [exact Hfree | |].
      - rewrite list_lookup_fmap, Hi1. done.
      - rewrite list_lookup_fmap, Hi2. simpl. by rewrite Heq. }
    split; [|done]. intros Heq. apply Hnorm.
    by rewrite <- Heq, normalize_key_idem.
Qed.

Lemma paginate_instances_trace ec2 c h :
  (paginate_instances ec2 c h).2 = h ++ [Called c (ec2 h c)].
Proof.
  unfold paginate_instances. rewrite M_bind_run, call_run.
  by destruct (ec2 h c).
Qed.

Lemma find_instances_filters ec2 ids (filters : gmap string (list string)) h :
  truthy_list ids = false →
  find_instances ec2 ids (Some filters) h
  = paginate_instances ec2
      (describe_instances_filters
         (ansible_dict_to_boto3_filter_list
            (rename_keys (map_to_list filters).*1 filters))) h.
Proof.
  intros Hids. unfold find_instances. rewrite Hids.
  unfold mbind at 1, M_mbind, M_bind.
  rewrite normalize_filter_keys_rename; [done|apply NoDup_fst_map_to_list|].
  intros k ([k' w] & -> & Hin)%list_elem_of_fmap.
  apply elem_of_map_to_list in Hin. eauto.
Qed.

(** C7, as the code has it: a non-empty identifier list is queried alone,
    whatever the filters are; without identifiers, filters that are [None]
    fail with the validation error before any request, and a filter mapping,
    empty or not, is normalized and submitted. *)
Theorem find_instances_ids_then_filters ec2 ids filters h :
  match ids with
  | Some ((_ :: _) as l) =>
      find_instances ec2 ids filters h
      = paginate_instances ec2 (describe_instances_ids l) h
  | _ =>
      match filters with
      | None =>
          find_instances ec2 ids filters h
          = (Exit (fail_json
               [("msg", JStr "No filters provided when they were required")]), h)
      | Some f =>
          find_instances ec2 ids filters h
          = paginate_instances ec2
              (describe_instances_filters
                 (ansible_dict_to_boto3_filter_list
                    (rename_keys (map_to_list f).*1 f))) h
      end
  end.
Proof.
  destruct ids as [[|i l]|]; [|reflexivity|];
    (destruct filters as [f|]; [by apply find_instances_filters | reflexivity]).
Qed.

(** C7 as stated fails: with no identifier and an empty filter mapping the
    locator does not fail, it submits an empty filter list. *)
Lemma find_instances_empty_filters_accepted :
  find_instances quiet_provider (Some []) (Some ∅) []
  = (Ret [], [Called (describe_instances_filters []) (RInstances [])]).
Proof. reflexivity. Qed.

(** C8, as the code has it: when no two keys of the mapping are submitted
    under the same key, the one request carries, for every entry of the
    mapping, the same value list under the key with its underscores replaced
    by hyphens, or under the key itself when it starts with [tag:], and
    nothing else. *)
Theorem find_instances_normalizes_filter_keys ec2 ids
    (filters : gmap string (list string)) h :
  truthy_list ids = false →
  collision_free (map_to_list filters).*1 →
  ∃ submitted : gmap string (list string),
    (find_instances ec2 ids (Some filters) h).2
    = h ++ [Called
              (describe_instances_filters (ansible_dict_to_boto3_filter_list submitted))
              (ec2 h (describe_instances_filters
                        (ansible_dict_to_boto3_filter_list submitted)))]
    ∧ (∀ key v, filters !! key = Some v → startswith key "tag:" = false →
         submitted !! replace "_" "-" key = Some v)
    ∧ (∀ key v, filters !! key = Some v → startswith key "tag:" = true →
         submitted !! key = Some v)
    ∧ (∀ key' v, submitted !! key' = Some v →
         ∃ key, filters !! key = Some v ∧ key' = normalize_key key).
Proof.
  intros Hids Hfree.
  exists (rename_keys (map_to_list filters).*1 filters).
  rewrite find_instances_filters, paginate_instances_trace by done.
  split; [done|].
  pose proof (collision_free_rename filters Hfree) as Hlookup.
  repeat split.
  - intros key v Hv Htag. apply Hlookup. exists key.
    unfold normalize_key. by rewrite Htag.
  - intros key v Hv Htag. apply Hlookup. exists key.
    unfold normalize_key. by rewrite Htag.
  - intros key' v (key & <- & Hv)%Hlookup. eauto.
Qed.

Lemma find_instances_normalizes_filter_keys_witness :
  ∃ submitted : gmap string (list string),
    (find_instances quiet_provider None
       (Some {[ "instance_type" := ["t2.micro"]; "tag:Name" := ["web_1"] ]}) []).2
    = [] ++ [Called
               (describe_instances_filters (ansible_dict_to_boto3_filter_list submitted))
               (quiet_provider [] (describe_instances_filters
                          (ansible_dict_to_boto3_filter_list submitted)))]
    ∧ (∀ key v,
         ({[ "instance_type" := ["t2.micro"]; "tag:Name" := ["web_1"] ]}
            : gmap string (list string)) !! key = Some v →
         startswith key "tag:" = false →
         submitted !! replace "_" "-" key = Some v)
    ∧ (∀ key v,
         ({[ "instance_type" := ["t2.micro"]; "tag:Name" := ["web_1"] ]}
            : gmap string (list string)) !! key = Some v →
         startswith key "tag:" = true →
         submitted !! key = Some v)
    ∧ (∀ key' v, submitted !! key' = Some v →
         ∃ key,
           ({[ "instance_type" := ["t2.micro"]; "tag:Name" := ["web_1"] ]}
              : gmap string (list string)) !! key = Some v
           ∧ key' = normalize_key key).
Proof.
  apply (find_instances_normalizes_filter_keys quiet_provider None
           {[ "instance_type" := ["t2.micro"]; "tag:Name" := ["web_1"] ]} []).
  - reflexivity.
  - unfold collision_free. apply (bool_decide_unpack _). vm_compute. exact I.
Defined.

(** C8 as stated fails: two keys that are submitted under the same key
    leave one entry, and the value list of the other is lost. *)
Lemma find_instances_colliding_keys_lose_values :
  find_instances quiet_provider None
    (Some {[ "instance_type" := ["t2.micro"]; "instance-type" := ["t2.large"] ]}) []
  = (Ret [], [Called (describe_instances_filters [("instance-type", ["t2.micro"])])
                (RInstances [])]).
Proof. vm_compute. reflexivity. Qed.

(** ** Attribute diff engine *)

Lemma diff_mapping_changes ec2 id_ params skip mapping changes h out h' :
  diff_mapping ec2 id_ params skip mapping changes h = (Ret out, h') →
  out = changes
  ∨ ((instance_key mapping ∉ skip)
     ∧ ∃ wanted, out = changes ++ [mkChange id_ (instance_key mapping) wanted]).
Proof.
  unfold diff_mapping.
  destruct (param_key mapping params) as [wanted|];
    [|intros [= <- <-]; by left].
  case_bool_decide as Hskip; [|intros [= <- <-]; by left].
  intros (b & h1 & _ & Hout)%M_bind_Ret.
  destruct (negb (Bool.eqb b wanted)); injection Hout as <- <-; [right|left]; eauto.
Qed.

(** The two attributes of the mapping table honour [skip]: a change for a
    skipped attribute can only be the one for [SourceDestCheck]. *)
Lemma diff_instance_and_params_skips_table ec2 instance params skip h changes h' :
  diff_instance_and_params ec2 instance params (Some skip) h = (Ret changes, h') →
  ∀ c, c ∈ changes → change_attribute c ∈ skip →
  change_attribute c = "SourceDestCheck".
Proof.
  unfold diff_instance_and_params, param_mappings. simpl.
  unfold mbind at 1, M_mbind at 1, M_bind at 1.
  unfold mbind at 1, M_mbind at 1, M_bind at 1.
  destruct (diff_mapping _ _ _ _ _ _ h) as [[out1| |] h1] eqn:H1; try done.
  unfold mbind at 1, M_mbind at 1, M_bind at 1.
  destruct (diff_mapping _ _ _ _ _ out1 h1) as [[out2| |] h2] eqn:H2; try done.
  apply diff_mapping_changes in H1, H2. simpl in H1, H2.
  assert (∀ c, c ∈ out2 → change_attribute c ∉ skip) as Hout.
  { intros c Hc. destruct H1 as [->|[? [w1 ->]]], H2 as [->|[? [w2 ->]]];
      set_solver. }
  unfold mret, M_mret, M_ret.
  destruct (network params ≫= source_dest_check) as [check|];
    [destruct (negb _)|]; intros [= <- <-] c Hc Hskip; set_solver.
Qed.

(** C2 fails on the code: with [SourceDestCheck] in the skip list and a
    desired [network.source_dest_check] that differs from the observed value,
    the diff still holds a change for [SourceDestCheck]. *)
Theorem diff_instance_and_params_ignores_skip_for_source_dest_check :
  diff_instance_and_params quiet_provider
    (sample_instance "i-0a1" "running")
    (sample_params None None None None None
       (Some (mkNetwork None None None (Some false) None)) None)
    (Some ["SourceDestCheck"]) []
  = (Ret [mkChange "i-0a1" "SourceDestCheck" false], []).
Proof. reflexivity. Qed.

(** ** Spec builder *)

(** What [build_top_level_options] requires of a launch template, and what
    it passes on: the identifier must be given and the name must not, and
    then the three entries reach the spec as they are. *)
Lemma build_top_level_options_launch_template ps cs params lt h spec h' :
  launch_template params = Some lt →
  build_top_level_options ps cs params h = (Ret spec, h') →
  truthy_str (launch_template_id lt) = true
  ∧ truthy_str (launch_template_name lt) = false
  ∧ LaunchTemplate_ spec
    = Some (mkLaunchTemplateSpec (launch_template_id lt)
              (launch_template_name lt) (launch_template_version lt)).
Proof.
  intros Hlt. unfold build_top_level_options. rewrite Hlt.
  destruct (if truthy_str (image_id params) then _ else _) as [[i r] k].
  intros (_ & h1 & _ & Hrun)%M_bind_Ret.
  apply M_bind_Ret in Hrun as (data & h2 & _ & Hrun).
  apply M_bind_Ret in Hrun as (lts & h3 & Hcheck & Hrun).
  injection Hrun as <- <-. simpl.
  apply M_bind_Ret in Hcheck as ([] & h4 & Hcheck & Hret).
  injection Hret as <- <-.
  destruct (truthy_str (launch_template_id lt)),
    (truthy_str (launch_template_name lt)); done.
Qed.

(** C3 fails on the code: a launch template given by its name alone is
    refused with the validation error. *)
Theorem build_top_level_options_refuses_template_name ps cs h :
  build_top_level_options ps cs
    (sample_params (Some "ami-0abc") (Some "subnet-1") None None
       (Some (mkLaunchTemplate None (Some "web") None)) None None) h
  = (Exit (fail_json [("msg", JStr
      "Could not create instance with launch template. Either launch_template.name or launch_template.id parameters are required")]),
     h).
Proof. reflexivity. Qed.

(** The ARN pattern on a full ARN, on a bare role name and on an ARN of
    another kind. *)
Example match_instance_profile_arn_samples :
  match_instance_profile_arn "arn:aws:iam::123456789012:instance-profile/web.role-1" = true
  ∧ match_instance_profile_arn "web-role" = false
  ∧ match_instance_profile_arn "arn:aws:iam::123456789012:role/web" = false
  ∧ match_instance_profile_arn "arn:aws:iam:::instance-profile/web" = false.
Proof. done. Qed.

(** The role reference in isolation: a full ARN is used as it is, without
    any request. *)
Lemma determine_iam_role_arn ec2 name_or_arn h :
  match_instance_profile_arn name_or_arn = true →
  determine_iam_role ec2 name_or_arn h = (Ret name_or_arn, h).
Proof. intros Harn. unfold determine_iam_role. by rewrite Harn. Qed.

(** A bare name is looked up; the profile's ARN is returned, and a
    [NoSuchEntity] error is reported as a fatal error. *)
Lemma determine_iam_role_lookup ec2 name_or_arn h :
  match_instance_profile_arn name_or_arn = false →
  determine_iam_role ec2 name_or_arn h
  = (match ec2 h (get_instance_profile name_or_arn) with
     | RStr arn => Ret arn
     | RRaise (ClientError code) =>
         Exit (fail_json
           [("msg", JStr
               (if String.eqb code "NoSuchEntity" then
                  "Could not find instance_role " +:+ name_or_arn
                else "An error occurred while searching for instance_role "
                     +:+ name_or_arn +:+ ". Please try supplying the full ARN."));
            ("error_code", JStr code)])
     | RRaise e => Raise e
     | _ => Raise (KeyError "InstanceProfile")
     end,
     h ++ [Called (get_instance_profile name_or_arn)
             (ec2 h (get_instance_profile name_or_arn))]).
Proof.
  intros Harn. unfold determine_iam_role. rewrite Harn.
  unfold try_except. rewrite M_bind_run, call_run.
  destruct (ec2 h _) as [| | | | | | | |[code| | | | | | | |]]; simpl; try done.
  by destruct (String.eqb code "NoSuchEntity").
Qed.

(** With an instance role in the configuration no creation spec is built,
    whatever the provider answers. *)
Lemma build_run_instance_spec_no_spec_with_role
    ec2 transient retries camel ps cs params h spec h' :
  truthy_str (instance_role params) = true →
  build_run_instance_spec ec2 transient retries camel ps cs params h ≠ (Ret spec, h').
Proof.
  intros Hrole Hrun. unfold build_run_instance_spec in Hrun. rewrite Hrole in Hrun.
  do 5 (apply M_bind_Ret in Hrun as (? & ? & _ & Hrun)).
  apply M_bind_Ret in Hrun as (? & ? & Hiam & _).
  by apply M_bind_Ret in Hiam as (? & ? & Hiam & _).
Qed.

(** C4 fails on the code: with an instance role in the configuration the
    spec builder stops with a [TypeError], where it calls
    [determine_iam_role] with one argument, and builds no spec. *)
Theorem build_run_instance_spec_instance_role_raises camel ps cs :
  build_run_instance_spec quiet_provider throttling 10 camel ps cs
    (sample_params (Some "ami-0abc") (Some "subnet-1") (Some "web-role")
       (Some "web") None None None) []
  = (Raise (TypeError "determine_iam_role() takes exactly 2 arguments (1 given)"),
     [Called uuid4_hex (RStr "")]).
Proof. reflexivity. Qed.

(** ** Default subnet *)

Lemma ascii_compare_N a b :
  Ascii.compare a b = N.compare (N_of_ascii a) (N_of_ascii b).
Proof. reflexivity. Qed.

Lemma az_le_trans a b c : az_le a b → az_le b c → az_le a c.
Proof.
  unfold az_le, String.leb. revert b c.
  induction a as [|x a IH]; intros [|y b] [|z c]; simpl; try done.
  rewrite !ascii_compare_N.
  destruct (N.compare_spec (N_of_ascii x) (N_of_ascii y)) as [Hxy|Hxy|Hxy];
    destruct (N.compare_spec (N_of_ascii y) (N_of_ascii z)) as [Hyz|Hyz|Hyz];
    destruct (N.compare_spec (N_of_ascii x) (N_of_ascii z)) as [Hxz|Hxz|Hxz];
    try done; try lia.
  apply IH.
Qed.

Lemma az_le_total a b : az_le a b ∨ az_le b a.
Proof. apply String.leb_total. Qed.

Lemma ltb_az_le a b : String.ltb a b = true → az_le a b.
Proof. unfold az_le, String.ltb, String.leb. by destruct (String.compare a b). Qed.

Lemma not_ltb_az_le a b : String.ltb a b = false → az_le b a.
Proof.
  unfold az_le, String.ltb, String.leb. rewrite (String.compare_antisym b a).
  by destruct (String.compare a b).
Qed.

Lemma insert_sorted_least_first {A} (key : A → string) x acc seen :
  least_first key acc seen → least_first key (insert_sorted key x acc) (seen ++ [x]).
Proof.
  destruct acc as [|m acc]; simpl.
  - intros ->. split; [set_solver|]. intros s ->%list_elem_of_singleton.
    destruct (az_le_total (key x) (key x)); done.
  - intros [Hm Hleast]. destruct (String.ltb (key x) (key m)) eqn:Hlt; simpl.
    + split; [set_solver|]. intros s [Hs| ->%list_elem_of_singleton]%elem_of_app.
      * eapply az_le_trans; [by apply ltb_az_le | by apply Hleast].
      * destruct (az_le_total (key x) (key x)); done.
    + split; [set_solver|]. intros s [Hs| ->%list_elem_of_singleton]%elem_of_app.
      * by apply Hleast.
      * by apply not_ltb_az_le.
Qed.

Lemma sorted_least_first {A} (key : A → string) l :
  least_first key (sorted l key) l.
Proof.
  unfold sorted.
  enough (∀ acc seen, least_first key acc seen →
            least_first key (foldl (λ acc x, insert_sorted key x acc) acc l)
              (seen ++ l)) as Hgen by apply (Hgen [] []), eq_refl.
  induction l as [|x l IH]; intros acc seen Hacc; simpl.
  - by rewrite app_nil_r.
  - rewrite (assoc_L (++) seen [x] l : seen ++ x :: l = (seen ++ [x]) ++ l).
    apply IH. by apply insert_sorted_least_first.
Qed.

Lemma dict_of_pairs_lookup {V} (pairs : list (string * V)) k v :
  dict_of_pairs pairs !! k = Some v → (k, v) ∈ pairs.
Proof.
  unfold dict_of_pairs.
  enough (∀ d : gmap string V,
            foldl (λ d kv, <[kv.1 := kv.2]> d) d pairs !! k = Some v →
            d !! k = Some v ∨ (k, v) ∈ pairs) as Hgen.
  { intros Hk. destruct (Hgen ∅ Hk) as [Hd|Hd]; [by rewrite lookup_empty in Hd|done]. }
  induction pairs as [|[k' v'] pairs IH]; intros d Hd; simpl in *; [by left|].
  destruct (IH _ Hd) as [Hin|Hin]; [|set_solver].
  destruct (decide (k' = k)) as [->|Hne].
  - rewrite lookup_insert_eq in Hin. set_solver.
  - rewrite lookup_insert_ne in Hin by done. by left.
Qed.

Lemma dict_of_pairs_is_Some {V} (pairs : list (string * V)) k :
  k ∈ pairs.*1 → is_Some (dict_of_pairs pairs !! k).
Proof.
  unfold dict_of_pairs.
  enough (∀ d : gmap string V,
            is_Some (d !! k) ∨ k ∈ pairs.*1 →
            is_Some (foldl (λ d kv, <[kv.1 := kv.2]> d) d pairs !! k)) as Hgen
    by (intros; apply Hgen; by right).
  induction pairs as [|[k' v'] pairs IH]; intros d Hd; simpl in *.
  { destruct Hd as [Hd|Hd]; [done|set_solver]. }
  apply IH. destruct (decide (k' = k)) as [->|Hne].
  - left. rewrite lookup_insert_eq. eauto.
  - rewrite lookup_insert_ne by done. set_solver.
Qed.

(** C6: when the provider lists at least one default-for-AZ subnet,
    [get_default_subnet] returns one of them, fixed by the list and the
    requested zone alone: the subnet of the requested availability zone when
    one is requested and listed, and otherwise a subnet whose availability
    zone is lexicographically first. *)
Theorem get_default_subnet_deterministic
    ec2 transient retries vpc availability_zone h subnets :
  ec2 h (default_subnets_request vpc) = RSubnets subnets →
  subnets ≠ [] →
  ∃ subnet,
    get_default_subnet ec2 transient retries vpc availability_zone h
    = (Ret (Some subnet),
       h ++ [Called (default_subnets_request vpc) (RSubnets subnets)])
    ∧ subnet ∈ subnets
    ∧ match availability_zone with
      | Some az =>
          if bool_decide (az ∈ AvailabilityZone <$> subnets)
          then AvailabilityZone subnet = az
          else ∀ s, s ∈ subnets →
                 az_le (AvailabilityZone subnet) (AvailabilityZone s)
      | None =>
          ∀ s, s ∈ subnets → az_le (AvailabilityZone subnet) (AvailabilityZone s)
      end.
Proof.
  intros Hec2 Hne.
  assert (∃ first, sorted subnets AvailabilityZone = first :: tail (sorted subnets AvailabilityZone)
                   ∧ first ∈ subnets
                   ∧ ∀ s, s ∈ subnets →
                       az_le (AvailabilityZone first) (AvailabilityZone s))
    as (first & Hsorted & Hfirst & Hleast).
  { pose proof (sorted_least_first AvailabilityZone subnets) as Hl.
    destruct (sorted subnets AvailabilityZone) as [|m ?]; simpl in Hl; [done|].
    exists m. naive_solver. }
  set (by_az := dict_of_pairs ((λ s, (AvailabilityZone s, s)) <$> subnets)).
  assert (∀ az s, by_az !! az = Some s → s ∈ subnets ∧ AvailabilityZone s = az)
    as Hby_az.
  { intros az s Hl%dict_of_pairs_lookup.
    apply list_elem_of_fmap in Hl as (s' & Heq & Hs'). by injection Heq as -> ->. }
  assert (∃ subnet,
    get_default_subnet_body ec2 vpc availability_zone h
    = (Ret (Some subnet),
       h ++ [Called (default_subnets_request vpc) (RSubnets subnets)])
    ∧ subnet = match availability_zone ≫= (by_az !!.) with
               | Some s => s
               | None => first
               end) as (subnet & Hrun & Hsubnet).
  { unfold get_default_subnet_body. rewrite M_bind_run, call_run.
    change (describe_subnets_filters _) with (default_subnets_request vpc).
    rewrite Hec2. destruct subnets as [|s0 subnets0]; [done|]. cbn [answer].
    fold by_az. change (az ← availability_zone; by_az !! az)
      with (availability_zone ≫= (by_az !!.)).
    destruct (availability_zone ≫= (by_az !!.)) as [s|]; [eauto|].
    rewrite Hsorted. eauto. }
  exists subnet. split; [by apply backoff_Ret|].
  destruct availability_zone as [az|]; simpl in Hsubnet.
  - destruct (by_az !! az) as [s|] eqn:Haz.
    + subst subnet. apply Hby_az in Haz as [Hin <-]. split; [done|].
      rewrite bool_decide_eq_true_2; [done|]. by apply list_elem_of_fmap_2.
    + subst subnet. split; [done|].
      rewrite bool_decide_eq_false_2; [done|].
      intros Hin. assert (is_Some (by_az !! az)) as [? ?]; [|congruence].
      apply dict_of_pairs_is_Some. by rewrite <- list_fmap_compose.
  - by subst subnet.
Qed.

Lemma get_default_subnet_deterministic_witness :
  ∃ subnet,
    get_default_subnet (subnets_provider sample_subnets) throttling 10
      (mkVpc "vpc-1") None []
    = (Ret (Some subnet),
       [] ++ [Called (default_subnets_request (mkVpc "vpc-1"))
                (RSubnets sample_subnets)])
    ∧ subnet ∈ sample_subnets
    ∧ ∀ s, s ∈ sample_subnets →
        az_le (AvailabilityZone subnet) (AvailabilityZone s).
Proof.
  apply (get_default_subnet_deterministic (subnets_provider sample_subnets)
           throttling 10 (mkVpc "vpc-1") None [] sample_subnets).
  - reflexivity.
  - discriminate.
Defined.

(** On the sample: the subnet of zone [us-east-1a] without a request, the
    subnet of the requested zone when it is listed, and [us-east-1a] again
    when the requested zone has no default subnet. *)
Example get_default_subnet_samples :
  (get_default_subnet (subnets_provider sample_subnets) throttling 10
     (mkVpc "vpc-1") None []).1
  = Ret (Some (mkSubnet "subnet-a" "us-east-1a" "vpc-1"))
  ∧ (get_default_subnet (subnets_provider sample_subnets) throttling 10
       (mkVpc "vpc-1") (Some "us-east-1b") []).1
    = Ret (Some (mkSubnet "subnet-b" "us-east-1b" "vpc-1"))
  ∧ (get_default_subnet (subnets_provider sample_subnets) throttling 10
       (mkVpc "vpc-1") (Some "us-east-1f") []).1
    = Ret (Some (mkSubnet "subnet-a" "us-east-1a" "vpc-1")).
Proof. repeat split; vm_compute; reflexivity. Qed.

(** ** Tag reconciler *)

Lemma manage_tags_body_run ec2 match_ new_tags purge_tags h :
  ∃ t, (manage_tags_body ec2 match_ new_tags purge_tags h).2 = h ++ t
    ∧ Forall (deletes_current_values match_
                (deleted_tags (observed_tags match_)
                   (tag_delta match_ new_tags purge_tags).2)) t
    ∧ ∀ changed,
        (manage_tags_body ec2 match_ new_tags purge_tags h).1 = Ret changed →
        changed = bool_decide ((tag_delta match_ new_tags purge_tags).1 ≠ ∅
                               ∨ (tag_delta match_ new_tags purge_tags).2 ≠ ∅)
        ∧ ((tag_delta match_ new_tags purge_tags).2 ≠ ∅ →
           ∃ r, Called (delete_tags [InstanceId match_]
                          (deleted_tags (observed_tags match_)
                             (tag_delta match_ new_tags purge_tags).2)) r ∈ t).
Proof.
  unfold manage_tags_body.
  change (boto3_tag_list_to_ansible_dict (Tags match_)) with (observed_tags match_).
  change (compare_aws_tags (observed_tags match_) new_tags purge_tags)
    with (tag_delta match_ new_tags purge_tags).
  rewrite (surjective_pairing (tag_delta match_ new_tags purge_tags)).
  cbn [fst snd]. cbv zeta.
  set (tags_to_set := (tag_delta match_ new_tags purge_tags).1).
  set (tags_to_delete := (tag_delta match_ new_tags purge_tags).2).
  change (ansible_dict_to_boto3_tag_list (set_to_map _ tags_to_delete))
    with (deleted_tags (observed_tags match_) tags_to_delete).
  set (tags := deleted_tags (observed_tags match_) tags_to_delete).
  assert (∀ c r, (∀ res tags', c ≠ delete_tags res tags') →
            deletes_current_values match_ tags (Called c r)) as Hother.
  { intros c r Hc res tags' r' [= -> _]. by destruct (Hc res tags'). }
  assert (∀ r, deletes_current_values match_ tags
                 (Called (delete_tags [InstanceId match_] tags) r))
    as Hdelete.
  { by intros r res tags' r' [= <- <- _]. }
  case_bool_decide as Hdel; case_bool_decide as Hset; run_M; cbn [fst snd].
  all: first [ exists []; split; [by rewrite app_nil_r|]
             | eexists; split; [by rewrite <- ?app_assoc|] ].
  all: cbn [app]; split;
    [repeat (apply Forall_cons_2; [first [apply Hdelete | apply Hother; by intros]|]);
     apply Forall_nil_2|].
  all: intros changed Hret; try discriminate Hret.
  all: injection Hret as <-; split;
    [first [by rewrite bool_decide_eq_true_2 by tauto
           | by rewrite bool_decide_eq_false_2 by tauto]|].
  all: intros Hdel'; try done; eexists; repeat constructor.
Qed.

Lemma deleted_tags_elem (old_tags : gmap string string) tags_to_delete key value :
  (key, value) ∈ deleted_tags old_tags tags_to_delete
  ↔ key ∈ tags_to_delete ∧ value = old_tags !! key.
Proof.
  unfold deleted_tags, ansible_dict_to_boto3_tag_list.
  rewrite elem_of_map_to_list, lookup_set_to_map by (by intros ??? ? [= ->]).
  split; [intros (k & Hk & [= -> ->]); done | intros [Hk ->]; eauto].
Qed.

(** A key is scheduled for deletion only if it is observed and not
    desired. *)
Lemma tags_to_delete_observed match_ new_tags purge_tags key :
  key ∈ (tag_delta match_ new_tags purge_tags).2 →
  is_Some (observed_tags match_ !! key) ∧ new_tags !! key = None.
Proof.
  unfold tag_delta, compare_aws_tags. simpl.
  destruct purge_tags; [|set_solver].
  rewrite elem_of_difference, !elem_of_dom, <- eq_None_not_Some. done.
Qed.

Lemma manage_tags_deletions ec2 transient retries match_ new_tags purge_tags h
    resources tags r :
  Called (delete_tags resources tags) r
    ∈ added h (manage_tags ec2 transient retries match_ new_tags purge_tags h).2 →
  resources = [InstanceId match_]
  ∧ tags = deleted_tags (observed_tags match_)
             (tag_delta match_ new_tags purge_tags).2.
Proof.
  unfold manage_tags, jittered_backoff. intros Hin.
  destruct (backoff_added_Forall transient retries
              (manage_tags_body ec2 match_ new_tags purge_tags)
              (deletes_current_values match_
                 (deleted_tags (observed_tags match_)
                    (tag_delta match_ new_tags purge_tags).2)))
    with (h := h) as (t & Ht & Hall).
  { intros h0.
    destruct (manage_tags_body_run ec2 match_ new_tags purge_tags h0)
      as (t & ? & ? & _). eauto. }
  rewrite Ht, added_app in Hin. rewrite Forall_forall in Hall.
  by apply (Hall _ Hin resources tags r).
Qed.

(** C10: a deletion that [manage_tags] sends to the provider names the
    instance and carries every key scheduled for deletion paired with the
    value observed for it, and nothing else; a run that returns with keys
    to delete has sent the deletion; and when the set-delta and the
    delete-delta are both empty the run makes no request and reports no
    change. *)
Theorem manage_tags_deletes_with_observed_values
    ec2 transient retries match_ new_tags purge_tags h :
  let old_tags := boto3_tag_list_to_ansible_dict (Tags match_) in
  let tags_to_set := (compare_aws_tags old_tags new_tags purge_tags).1 in
  let tags_to_delete := (compare_aws_tags old_tags new_tags purge_tags).2 in
  (∀ resources tags r,
     Called (delete_tags resources tags) r
       ∈ added h (manage_tags ec2 transient retries match_ new_tags purge_tags h).2 →
     resources = [InstanceId match_]
     ∧ (∀ key, key ∈ tags_to_delete →
          ∃ value, old_tags !! key = Some value ∧ (key, Some value) ∈ tags)
     ∧ (∀ key value, (key, value) ∈ tags →
          key ∈ tags_to_delete ∧ value = old_tags !! key ∧ is_Some value))
  ∧ (∀ changed,
       (manage_tags ec2 transient retries match_ new_tags purge_tags h).1
       = Ret changed →
       tags_to_delete ≠ ∅ →
       changed = true
       ∧ ∃ tags r,
           Called (delete_tags [InstanceId match_] tags) r
             ∈ added h (manage_tags ec2 transient retries match_ new_tags purge_tags h).2)
  ∧ (tags_to_set = ∅ → tags_to_delete = ∅ →
     manage_tags ec2 transient retries match_ new_tags purge_tags h = (Ret false, h)).
Proof.
  cbv zeta.
  change (boto3_tag_list_to_ansible_dict (Tags match_)) with (observed_tags match_).
  change (compare_aws_tags (observed_tags match_) new_tags purge_tags)
    with (tag_delta match_ new_tags purge_tags).
  split; [|split].
  - intros resources tags r [-> ->]%manage_tags_deletions.
    split; [done|]. split.
    + intros key Hkey.
      destruct (tags_to_delete_observed _ _ _ _ Hkey) as [[value Hvalue] _].
      exists value. split; [done|]. apply deleted_tags_elem. by rewrite Hvalue.
    + intros key value [Hkey ->]%deleted_tags_elem. split; [done|]. split; [done|].
      by destruct (tags_to_delete_observed _ _ _ _ Hkey).
  - intros changed Hret Hdel. unfold manage_tags, jittered_backoff in *.
    destruct (backoff_last_attempt transient retries
                (manage_tags_body ec2 match_ new_tags purge_tags)) with (h := h)
      as [t0 Hlast].
    { intros h0.
      destruct (manage_tags_body_run ec2 match_ new_tags purge_tags h0)
        as (t & ? & _). eauto. }
    rewrite Hlast in *.
    destruct (manage_tags_body_run ec2 match_ new_tags purge_tags (h ++ t0))
      as (t & Ht & _ & Hbody).
    destruct (Hbody _ Hret) as [-> Hsent]. destruct (Hsent Hdel) as [r Hr].
    split; [apply bool_decide_eq_true_2; by right|].
    eexists _, r. rewrite Ht, <- app_assoc, added_app.
    apply elem_of_app. by right.
  - intros Hset Hdel. apply backoff_Ret.
    unfold manage_tags_body.
    change (boto3_tag_list_to_ansible_dict (Tags match_)) with (observed_tags match_).
    change (compare_aws_tags (observed_tags match_) new_tags purge_tags)
      with (tag_delta match_ new_tags purge_tags).
    rewrite (surjective_pairing (tag_delta match_ new_tags purge_tags)).
    rewrite Hset, Hdel. reflexivity.
Qed.

Lemma manage_tags_deletes_with_observed_values_witness :
  (true = true
   ∧ ∃ tags r,
       Called (delete_tags [InstanceId tagged_instance] tags) r
         ∈ added []
             (manage_tags tags_provider throttling 10 tagged_instance
                {[ "env" := "prod" ]} true []).2)
  ∧ manage_tags tags_provider throttling 10 tagged_instance
      {[ "env" := "dev"; "owner" := "ops" ]} false []
    = (Ret false, []).
Proof.
  split.
  - apply (proj1 (proj2 (manage_tags_deletes_with_observed_values
             tags_provider throttling 10 tagged_instance
             {[ "env" := "prod" ]} true [])) true).
    + vm_compute. reflexivity.
    + apply (bool_decide_unpack _). vm_compute. exact I.
  - apply (proj2 (proj2 (manage_tags_deletes_with_observed_values
             tags_provider throttling 10 tagged_instance
             {[ "env" := "dev"; "owner" := "ops" ]} false []))).
    + vm_compute. reflexivity.
    + vm_compute. reflexivity.
Defined.

(** A purging run on the sample: [env] is set anew, and [owner] is deleted
    with the value it was seen with. *)
Example manage_tags_purge_sample :
  manage_tags tags_provider throttling 10 tagged_instance {[ "env" := "prod" ]} true []
  = (Ret true,
     [Called (create_tags ["i-0a1"] [("env", "prod")]) RDone;
      Called (delete_tags ["i-0a1"] [("owner", Some "ops")]) RDone]).
Proof. vm_compute. reflexivity. Qed.

(** ** Network interface reconciler *)








(** On the sample, [eni-a] goes to device index 0 and [eni-c] to device
    index 2; [eni-b] is attached already. The two requests come in the order
    in which the set is enumerated, which the code does not fix. *)
Example change_network_attachments_sample :
  ∃ t,
    change_network_attachments tags_provider interfaces_instance
      interfaces_params []
    = (Ret true, t)
    ∧ t ≡ₚ [Called (attach_network_interface 0 "i-0a1" "eni-a") RDone;
            Called (attach_network_interface 2 "i-0a1" "eni-c") RDone].
Proof. eexists. split; [vm_compute; reflexivity|]. apply perm_swap. Qed.


(** ** State transition controller *)

Lemma paginate_instances_run ec2 c h :
  paginate_instances ec2 c h
  = (match ec2 h c with
     | RInstances l => Ret l
     | RRaise e => Raise e
     | _ => Raise (KeyError "Reservations")
     end, h ++ [Called c (ec2 h c)]).
Proof.
  unfold paginate_instances. rewrite M_bind_run, call_run.
  by destruct (ec2 h c).
Qed.

Lemma await_instances_added ec2 params ids state h :
  ∃ t, (await_instances ec2 params ids state h).2 = h ++ t
    ∧ Forall (λ e, match e with
                   | Called (waiter_wait _ ids' _ _) _ => ids' = ids
                   | Warned _ => True
                   | _ => False
                   end) t.
Proof.
  unfold await_instances.
  destruct (wait params); cbn [negb];
    [|exists []; split; [by rewrite app_nil_r|constructor]].
  destruct (_ !! state) as [waiter|];
    [|exists []; split; [by rewrite app_nil_r|constructor]].
  unfold try_except. rewrite M_bind_run, call_run.
  destruct (answer _) as [r|[]|x]; unfold_M; cbn [fst snd];
    eexists; (split; [by rewrite <- ?app_assoc|]); by repeat constructor.
Qed.

(** For the target [STOPPED], an instance that is already stopping gets no
    request; it joins the set [unchanged] and the set [changed] stays as it
    is. *)
Lemma change_one_stopping ec2 inst changed unchanged h :
  StateName inst = "stopping" →
  change_one ec2 "STOPPED" inst (changed, unchanged) h
  = (Ret (changed, unchanged ∪ {[InstanceId inst]}), h).
Proof. intros Hstate. unfold change_one. by rewrite Hstate. Qed.

Lemma change_one_not_stopping ec2 inst changed unchanged h :
  StateName inst ≠ "stopping" →
  ∃ o,
    change_one ec2 "STOPPED" inst (changed, unchanged) h
    = (o, h ++ [Called (stop_instances [InstanceId inst])
                  (ec2 h (stop_instances [InstanceId inst]))])
    ∧ ∀ changed' unchanged', o = Ret (changed', unchanged') → unchanged' = unchanged.
Proof.
  intros Hstate%String.eqb_neq. unfold change_one, try_except, call_ids.
  cbn [String.eqb Ascii.eqb Bool.eqb andb].
  rewrite Hstate. cbn [andb]. unfold_M. rewrite call_run.
  destruct (answer _) as [[]|e|x]; cbn; try destruct (is_boto_error e);
    eexists; (split; [reflexivity|]); congruence.
Qed.

Lemma stop_loop ec2 l : ∀ changed unchanged h,
  ∃ t,
    (for_each l (change_one ec2 "STOPPED") (changed, unchanged) h).2 = h ++ t
    ∧ Forall (λ e, ∃ inst r, inst ∈ l ∧ StateName inst ≠ "stopping"
                     ∧ e = Called (stop_instances [InstanceId inst]) r) t
    ∧ ∀ changed' unchanged',
        (for_each l (change_one ec2 "STOPPED") (changed, unchanged) h).1
        = Ret (changed', unchanged') →
        unchanged ⊆ unchanged'
        ∧ ∀ inst, inst ∈ l → StateName inst = "stopping" →
            InstanceId inst ∈ unchanged'.
Proof.
  induction l as [|inst l IH]; intros changed unchanged h.
  { exists []. cbn. rewrite app_nil_r. repeat split; [constructor| |];
      intros; simplify_eq; set_solver. }
  cbn [for_each]. rewrite M_bind_run.
  destruct (decide (StateName inst = "stopping")) as [Hstate|Hstate].
  - rewrite change_one_stopping by done.
    destruct (IH changed (unchanged ∪ {[InstanceId inst]}) h) as (t & Ht & Hall & Hret).
    exists t. split; [done|]. split.
    + eapply Forall_impl; [exact Hall|]. intros e (i & r & ? & ? & ?).
      exists i, r. set_solver.
    + intros changed' unchanged' Hrun. destruct (Hret _ _ Hrun) as [Hsub Hin].
      split; [set_solver|]. intros i [->|Hi]%elem_of_cons ?; [set_solver|by apply Hin].
  - destruct (change_one_not_stopping ec2 inst changed unchanged h Hstate)
      as (o & -> & Ho).
    destruct o as [[changed1 unchanged1]|e|x].
    + rewrite (Ho _ _ eq_refl).
      destruct (IH changed1 unchanged
                  (h ++ [Called (stop_instances [InstanceId inst])
                           (ec2 h (stop_instances [InstanceId inst]))]))
        as (t & Ht & Hall & Hret).
      eexists (_ :: t). rewrite Ht, <- app_assoc. split; [done|]. split.
      * constructor; [exists inst; eexists; split; [by constructor|by split]|].
        eapply Forall_impl; [exact Hall|]. intros e (i & r & ? & ? & ?).
        exists i, r. set_solver.
      * intros changed' unchanged' Hrun. destruct (Hret _ _ Hrun) as [Hsub Hin].
        split; [done|]. intros i [->|Hi]%elem_of_cons ?; [done|by apply Hin].
    + eexists [_]. split; [done|]. split; [|done].
      constructor; [|constructor]. exists inst. eexists. split; [by constructor|by split].
    + eexists [_]. split; [done|]. split; [|done].
      constructor; [|constructor]. exists inst. eexists. split; [by constructor|by split].
Qed.

Lemma change_instance_state_body_stopped ec2 params filters id h :
  ∃ t,
    (change_instance_state_body ec2 params filters "STOPPED" h).2 = h ++ t
    ∧ (Forall (observed_stopping id) t → Forall (spares_and_awaits id) t).
Proof.
  unfold change_instance_state_body. rewrite M_bind_run.
  destruct filters as [f|];
    [rewrite find_instances_filters by done
    |exists []; split; [by rewrite app_nil_r|done]].
  rewrite paginate_instances_run.
  set (ev0 := Called _ (ec2 h _)).
  destruct (ec2 h _) as [l| | | | | | | |e] eqn:Hl;
    try (exists [ev0]; split; [done|]; by repeat constructor).
  rewrite M_bind_run.
  destruct (stop_loop ec2 l ∅ ∅ (h ++ [ev0])) as (t1 & Ht1 & Hstops & Hunchanged).
  assert (Forall (observed_stopping id) [ev0] → Forall (spares_and_awaits id) t1)
    as Hgood1.
  { intros [[Hlisted Hstopping] _]%Forall_cons. rewrite Forall_forall in Hstopping.
    eapply Forall_impl; [exact Hstops|].
    intros e (inst & r & Hinst & Hstate & ->). simpl.
    intros ->%list_elem_of_singleton. by destruct Hstate; apply Hstopping. }
  destruct (for_each l _ _ _) as [[[changed unchanged]|e|x] h1];
    simpl in Ht1; subst h1;
    try (exists (ev0 :: t1); split; [by rewrite <- app_assoc|];
         intros [? ?]%Forall_cons; constructor; [done|];
         apply Hgood1; by constructor).
  destruct (Hunchanged _ _ eq_refl) as [_ Hin].
  rewrite M_bind_run.
  assert (∃ t2,
    ((if bool_decide (changed ≠ ∅)
      then await_instances ec2 params (elements changed ++ elements unchanged) "STOPPED"
      else mret ()) ((h ++ [ev0]) ++ t1)).2 = ((h ++ [ev0]) ++ t1) ++ t2
    ∧ (Forall (observed_stopping id) [ev0] → Forall (spares_and_awaits id) t2))
    as (t2 & Ht2 & Hgood2).
  { case_bool_decide.
    - destruct (await_instances_added ec2 params
                  (elements changed ++ elements unchanged) "STOPPED"
                  ((h ++ [ev0]) ++ t1)) as (t2 & Ht2 & Hwait).
      exists t2. split; [done|].
      intros [[Hlisted Hstopping] _]%Forall_cons. rewrite Forall_forall in Hstopping.
      apply list_elem_of_fmap in Hlisted as (inst & -> & Hinst).
      eapply Forall_impl; [exact Hwait|].
      intros [[] r|msg]; simpl; try done. intros ->.
      rewrite elem_of_app, !elem_of_elements. right. apply Hin; [done|].
      by apply Hstopping.
    - exists []. split; [by rewrite app_nil_r|]. by constructor. }
  destruct (if bool_decide (changed ≠ ∅) then _ else _) as [[[]|e|x] h2];
    simpl in Ht2; subst h2;
    try (exists (ev0 :: t1 ++ t2); split; [by rewrite <- !app_assoc|];
         intros [? ?]%Forall_cons; constructor; [done|];
         apply Forall_app; split; [apply Hgood1|apply Hgood2]; by constructor).
  rewrite M_bind_mret_snd.
  unfold find_instances. destruct (elements _) as [|i ids]; cbn [truthy_list default].
  - exists (ev0 :: t1 ++ t2). split; [by rewrite <- !app_assoc|].
    intros [? ?]%Forall_cons; constructor; [done|].
    apply Forall_app; split; [apply Hgood1|apply Hgood2]; by constructor.
  - rewrite paginate_instances_trace.
    eexists (ev0 :: t1 ++ t2 ++ [_]).
    split; [by rewrite <- !app_assoc|].
    intros [? ?]%Forall_cons; constructor; [done|].
    rewrite !Forall_app. split; [apply Hgood1; by constructor|].
    split; [apply Hgood2; by constructor|]. by repeat constructor.
Qed.

(** What the code does for an instance that is already stopping: in a run
    of [change_instance_state] for the target [STOPPED], an instance that
    every description by filters lists, and lists only as [stopping], is left
    out of every stop request, and is among the identifiers of every wait
    that the run makes. *)
Theorem change_instance_state_spares_stopping
    ec2 params transient retries filters id h :
  Forall (observed_stopping id)
    (added h (change_instance_state ec2 params transient retries
                filters "STOPPED" h).2) →
  Forall (spares_and_awaits id)
    (added h (change_instance_state ec2 params transient retries
                filters "STOPPED" h).2).
Proof.
  unfold change_instance_state, jittered_backoff.
  destruct (backoff_added transient retries
              (change_instance_state_body ec2 params filters "STOPPED")
              (λ t, Forall (observed_stopping id) t → Forall (spares_and_awaits id) t))
    with (h := h) as (t & -> & Ht).
  - intros t1 t2 H1 H2 [? ?]%Forall_app. apply Forall_app. auto.
  - apply change_instance_state_body_stopped.
  - by rewrite added_app.
Qed.

Lemma change_instance_state_spares_stopping_witness :
  Forall (spares_and_awaits "i-0b2")
    (added []
       (change_instance_state mixed_provider
          (sample_params None None None None None None (Some stopped_filters))
          throttling 10 (Some stopped_filters) "STOPPED" []).2).
Proof.
  apply (change_instance_state_spares_stopping mixed_provider
           (sample_params None None None None None None (Some stopped_filters))
           throttling 10 (Some stopped_filters) "i-0b2" []).
  apply (bool_decide_unpack _). vm_compute. exact I.
Defined.

(** The run of the witness: the running instance is stopped, and the wait
    names both instances. *)
Example change_instance_state_mixed_sample :
  added []
    (change_instance_state mixed_provider
       (sample_params None None None None None None (Some stopped_filters))
       throttling 10 (Some stopped_filters) "STOPPED" []).2
  = [Called (describe_instances_filters
               [("instance-state-name", ["stopping"; "pending"; "running"])])
       (RInstances [sample_instance "i-0a1" "running";
                    sample_instance "i-0b2" "stopping"]);
     Called (stop_instances ["i-0a1"]) (RIds ["i-0a1"]);
     Called (waiter_wait "instance_stopped" ["i-0a1"; "i-0b2"] 15 40) RDone;
     Called (describe_instances_ids ["i-0a1"; "i-0b2"])
       (RInstances [sample_instance "i-0a1" "running";
                    sample_instance "i-0b2" "stopping"])].
Proof. vm_compute. reflexivity. Qed.

(** C1 fails on the code: of two candidates, one running and one already
    stopping, the run sends a stop request for the running one alone and
    waits for both, and then returns the stopping one in the failed list:
    the list is [to_change - changed], and the instances that the loop has
    put in [unchanged] are not taken out of it. *)
Theorem change_instance_state_stopping_returned_failed :
  change_instance_state mixed_provider
    (sample_params None None None None None None (Some stopped_filters))
    throttling 10 (Some stopped_filters) "STOPPED" []
  = (Ret ({[ "i-0a1" ]}, ["i-0b2"],
          [sample_instance "i-0a1" "running"; sample_instance "i-0b2" "stopping"]),
     [Called (describe_instances_filters
                [("instance-state-name", ["stopping"; "pending"; "running"])])
        (RInstances [sample_instance "i-0a1" "running";
                     sample_instance "i-0b2" "stopping"]);
      Called (stop_instances ["i-0a1"]) (RIds ["i-0a1"]);
      Called (waiter_wait "instance_stopped" ["i-0a1"; "i-0b2"] 15 40) RDone;
      Called (describe_instances_ids ["i-0a1"; "i-0b2"])
        (RInstances [sample_instance "i-0a1" "running";
                     sample_instance "i-0b2" "stopping"])]).
Proof. vm_compute. reflexivity. Qed.

(** An instance that is already stopping, alone among the candidates, is
    returned in the failed list as well, and no wait is made. *)
Example change_instance_state_stopping_reported_failed :
  change_instance_state stopping_provider
    (sample_params None None None None None None (Some stopped_filters))
    throttling 10 (Some stopped_filters) "STOPPED" []
  = (Ret (∅, ["i-0a1"], [sample_instance "i-0a1" "stopping"]),
     [Called (describe_instances_filters
                [("instance-state-name", ["stopping"; "pending"; "running"])])
        (RInstances [sample_instance "i-0a1" "stopping"]);
      Called (describe_instances_ids ["i-0a1"])
        (RInstances [sample_instance "i-0a1" "stopping"])]).
Proof. vm_compute. reflexivity. Qed.

(** What the caller makes of it: for the state [stopped] the module ends in
    the fatal error that it could not stop the instances, with the stopping
    instance under [stop_failed]. *)
Example ensure_instance_state_stopping_fails :
  (ensure_instance_state mixed_provider
     (sample_params None None None None None None (Some stopped_filters))
     throttling 10 "stopped" []).1
  = Exit (fail_json
      [("msg", JStr "Unable to stop instances");
       ("stop_success", JIds ["i-0a1"]);
       ("stop_failed", JIds ["i-0b2"])]).
Proof. vm_compute. reflexivity. Qed.

(** C9 fails on the code: the provider refuses to stop the instance and
    agrees to start it; the restart reports success, with the instance in
    [reboot_success] and an empty [reboot_failed]. The outcome of the stop
    phase is overwritten by the outcome of the start phase. *)
Theorem ensure_instance_state_restart_drops_stop_failure :
  ensure_instance_state unstoppable_provider
    (sample_params None None None None None None (Some running_filters))
    throttling 10 "restarted" []
  = (Exit (exit_json
       [("msg", JStr "Instances restarted");
        ("reboot_success", JIds ["i-0a1"]);
        ("changed", JBool true);
        ("reboot_failed", JIds []);
        ("instances", JInstances [sample_instance "i-0a1" "running"])]),
     [Called (describe_instances_filters
                [("instance-state-name", ["pending"; "running"; "stopping"; "stopped"])])
        (RInstances [sample_instance "i-0a1" "running"]);
      Called (stop_instances ["i-0a1"]) (RRaise (ClientError "UnsupportedOperation"));
      Called (describe_instances_ids ["i-0a1"])
        (RInstances [sample_instance "i-0a1" "running"]);
      Called (describe_instances_filters
                [("instance-state-name", ["pending"; "running"; "stopping"; "stopped"])])
        (RInstances [sample_instance "i-0a1" "running"]);
      Called (start_instances ["i-0a1"]) (RIds ["i-0a1"]);
      Called (waiter_wait "instance_running" ["i-0a1"] 15 40) RDone;
      Called (describe_instances_ids ["i-0a1"])
        (RInstances [sample_instance "i-0a1" "running"])]).
Proof. vm_compute. reflexivity. Qed.

(** In the restart, what the stop phase returned is not used: the report is
    made from what the start phase returns. *)
Lemma ensure_instance_state_restart_report ec2 params transient retries h :
  ensure_instance_state ec2 params transient retries "restarted" h
  = (change_instance_state ec2 params transient retries (filters params) "STOPPED"
     ≫= λ _,
       change_instance_state ec2 params transient retries (filters params) "RUNNING"
       ≫= λ '(changed, failed, instances),
         report_state_change "Unable to restart instances" "Instances restarted"
           "reboot_success" "reboot_failed" changed failed instances) h.
Proof.
  unfold ensure_instance_state. cbn [bool_decide decide_rel].
  rewrite bool_decide_eq_false_2, bool_decide_eq_true_2 by set_solver.
  rewrite !M_bind_run.
  by destruct (change_instance_state _ _ _ _ _ "STOPPED" h)
    as [[[[changed failed] instances]|e|x] h1].
Qed.

(** The stop phase of that run did fail for the instance. *)
Example change_instance_state_stop_refused :
  (change_instance_state unstoppable_provider
     (sample_params None None None None None None (Some running_filters))
     throttling 10 (Some running_filters) "STOPPED" []).1
  = Ret (∅, ["i-0a1"], [sample_instance "i-0a1" "running"]).
Proof. vm_compute. reflexivity. Qed.

(** * Further properties *)

(** ** Resource locator *)

(** X1: [find_instances] renames the keys of the mapping in place. Given
    the renamed mapping again, it submits the request that it submitted for
    the original mapping: renaming is idempotent. *)
Theorem find_instances_renamed_filters_same_request ec2
    (filters : gmap string (list string)) h :
  find_instances ec2 None (Some (rename_keys (map_to_list filters).*1 filters)) h
  = find_instances ec2 None (Some filters) h.
Proof.
  rewrite !find_instances_filters by done.
  by rewrite (rename_keys_idem filters).
Qed.

(** ** Attribute diff engine *)

Lemma diff_mapping_run ec2 id_ params skip mapping changes h :
  ∃ t, (diff_mapping ec2 id_ params skip mapping changes h).2 = h ++ t
    ∧ (t = []
       ∨ is_Some (param_key mapping params)
         ∧ (instance_key mapping ∉ skip)
         ∧ t = [Called (describe_instance_attribute (attribute_name mapping) id_)
                  (ec2 h (describe_instance_attribute (attribute_name mapping) id_))])
    ∧ ∀ out,
        (diff_mapping ec2 id_ params skip mapping changes h).1 = Ret out →
        out = changes
        ∨ ∃ wanted,
            param_key mapping params = Some wanted
            ∧ (instance_key mapping ∉ skip)
            ∧ out = changes ++ [mkChange id_ (instance_key mapping) wanted].
Proof.
  unfold diff_mapping.
  destruct (param_key mapping params) as [wanted|];
    [|exists []; rewrite app_nil_r; cbn; split; [done|];
      split; [by left|]; intros out [= <-]; by left].
  case_bool_decide as Hskip;
    [|exists []; rewrite app_nil_r; cbn; split; [done|];
      split; [by left|]; intros out [= <-]; by left].
  unfold call_value. rewrite !M_bind_run, call_run.
  exists [Called (describe_instance_attribute (attribute_name mapping) id_)
            (ec2 h (describe_instance_attribute (attribute_name mapping) id_))].
  destruct (answer _) as [[| |b| | | | | |]|e|x]; cbn;
    try destruct (negb (Bool.eqb b wanted)); cbn;
    (split; [reflexivity|]); (split; [right; eauto|]); try done;
    intros out [= <-]; first [by left | right; eauto].
Qed.

(** X2: every change that [diff_instance_and_params] returns targets the
    instance, names one of the three mutable attributes and carries the value
    that the configuration wants for it; a change for one of the two table
    attributes is not in the skip list, a change for the source/destination
    check differs from the value observed on the instance, and no attribute
    is changed twice. *)
Theorem diff_instance_and_params_changes ec2 instance params skip h changes h' :
  diff_instance_and_params ec2 instance params skip h = (Ret changes, h') →
  NoDup (change_attribute <$> changes)
  ∧ ∀ c, c ∈ changes →
      change_InstanceId c = InstanceId instance
      ∧ ((change_attribute c = "EbsOptimized"
          ∧ ebs_optimized params = Some (change_Value c)
          ∧ "EbsOptimized" ∉ default [] skip)
         ∨ (change_attribute c = "DisableApiTermination"
            ∧ termination_protection params = Some (change_Value c)
            ∧ "DisableApiTermination" ∉ default [] skip)
         ∨ (change_attribute c = "SourceDestCheck"
            ∧ network params ≫= source_dest_check = Some (change_Value c)
            ∧ SourceDestCheck instance ≠ change_Value c)).
Proof.
  unfold diff_instance_and_params, param_mappings. cbn [for_each].
  intros (out & h3 & Hloop & Hlast)%M_bind_Ret.
  apply M_bind_Ret in Hloop as (out1 & h1 & H1 & Hloop).
  apply M_bind_Ret in Hloop as (out2 & h2 & H2 & Hloop).
  injection Hloop as -> ->.
  pose proof (diff_mapping_run ec2 (InstanceId instance) params (default [] skip)
                (mkParamMapper ebs_optimized "EbsOptimized" "ebsOptimized") [] h)
    as (_ & _ & _ & Hout1).
  rewrite H1 in Hout1. specialize (Hout1 _ eq_refl).
  pose proof (diff_mapping_run ec2 (InstanceId instance) params (default [] skip)
                (mkParamMapper termination_protection "DisableApiTermination"
                   "disableApiTermination") out1 h1)
    as (_ & _ & _ & Hout2).
  rewrite H2 in Hout2. specialize (Hout2 _ eq_refl). cbn in Hout1, Hout2.
  assert (changes = out
          ∨ ∃ check, network params ≫= source_dest_check = Some check
              ∧ SourceDestCheck instance ≠ check
              ∧ changes = out ++ [mkChange (InstanceId instance) "SourceDestCheck" check])
    as Hchanges.
  { destruct (network params ≫= source_dest_check) as [check|];
      [|injection Hlast as <- _; by left].
    destruct (Bool.eqb (SourceDestCheck instance) check) eqn:Heq; cbn in Hlast;
      injection Hlast as <- _; [by left|].
    right. exists check. apply Bool.eqb_false_iff in Heq. done. }
  destruct Hout1 as [->|(w1 & Hw1 & Hs1 & ->)],
    Hout2 as [->|(w2 & Hw2 & Hs2 & ->)],
    Hchanges as [->|(check & Hcheck & Hdiff & ->)]; cbn.
  all: split; [repeat (apply NoDup_cons; split; [set_solver|]); apply NoDup_nil_2|].
  all: intros c Hc; repeat (apply elem_of_cons in Hc as [->|Hc]);
    try (by apply elem_of_nil in Hc); cbn; (split; [done|]); tauto.
Qed.

Lemma diff_instance_and_params_changes_witness :
  ∃ changes h',
    diff_instance_and_params attributes_provider (sample_instance "i-0a1" "running")
      attributes_params (Some ["UserData"; "EbsOptimized"]) [] = (Ret changes, h')
    ∧ NoDup (change_attribute <$> changes)
    ∧ ∀ c, c ∈ changes →
        change_InstanceId c = "i-0a1"
        ∧ ((change_attribute c = "EbsOptimized"
            ∧ Some true = Some (change_Value c)
            ∧ "EbsOptimized" ∉ ["UserData"; "EbsOptimized"])
           ∨ (change_attribute c = "DisableApiTermination"
              ∧ Some true = Some (change_Value c)
              ∧ "DisableApiTermination" ∉ ["UserData"; "EbsOptimized"])
           ∨ (change_attribute c = "SourceDestCheck"
              ∧ Some false = Some (change_Value c)
              ∧ true ≠ change_Value c)).
Proof.
  eexists _, _. split; [vm_compute; reflexivity|].
  eapply (diff_instance_and_params_changes attributes_provider
            (sample_instance "i-0a1" "running") attributes_params
            (Some ["UserData"; "EbsOptimized"]) []).
  vm_compute. reflexivity.
Defined.

(** X3: [diff_instance_and_params] only reads. Its requests are at most
    two [describe_instance_attribute], on the instance, each for a table
    attribute that the configuration sets and the skip list leaves in. *)
Theorem diff_instance_and_params_reads ec2 instance params skip h :
  length (added h (diff_instance_and_params ec2 instance params skip h).2) ≤ 2
  ∧ Forall (λ e, ∃ r,
        (e = Called (describe_instance_attribute "ebsOptimized"
                       (InstanceId instance)) r
         ∧ is_Some (ebs_optimized params)
         ∧ "EbsOptimized" ∉ default [] skip)
        ∨ (e = Called (describe_instance_attribute "disableApiTermination"
                         (InstanceId instance)) r
           ∧ is_Some (termination_protection params)
           ∧ "DisableApiTermination" ∉ default [] skip))
      (added h (diff_instance_and_params ec2 instance params skip h).2).
Proof.
  pose proof (diff_mapping_run ec2 (InstanceId instance) params (default [] skip)
                (mkParamMapper ebs_optimized "EbsOptimized" "ebsOptimized") [] h)
    as (t1 & Ht1 & Hev1 & _).
  pose proof (diff_mapping_run ec2 (InstanceId instance) params (default [] skip)
                (mkParamMapper termination_protection "DisableApiTermination"
                   "disableApiTermination")) as Hsecond.
  cbn [param_key instance_key attribute_name] in Hev1, Hsecond.
  assert (∃ t2,
    (added h
       ((diff_mapping ec2 (InstanceId instance) params (default [] skip)
           (mkParamMapper ebs_optimized "EbsOptimized" "ebsOptimized") []
         ≫= λ out1,
           diff_mapping ec2 (InstanceId instance) params (default [] skip)
             (mkParamMapper termination_protection "DisableApiTermination"
                "disableApiTermination") out1
           ≫= λ out2, mret out2) h).2) = t1 ++ t2
    ∧ (t2 = []
       ∨ ∃ r, is_Some (termination_protection params)
           ∧ ("DisableApiTermination" ∉ default [] skip)
           ∧ t2 = [Called (describe_instance_attribute "disableApiTermination"
                             (InstanceId instance)) r])) as (t2 & Ht2 & Hev2).
  { rewrite M_bind_run.
    destruct (diff_mapping _ _ _ _ _ [] h) as [[out1|e|x] h1]; cbn in Ht1; subst h1;
      [|exists []; cbn [snd]; rewrite added_app, app_nil_r; eauto..].
    rewrite M_bind_mret_snd.
    destruct (Hsecond out1 (h ++ t1)) as (t2 & -> & Hev2 & _).
    exists t2. rewrite <- app_assoc, added_app. split; [done|].
    destruct Hev2 as [->|(? & ? & ->)]; eauto. }
  assert (added h
            (diff_instance_and_params ec2 instance params skip h).2 = t1 ++ t2)
    as ->.
  { rewrite <- Ht2. unfold diff_instance_and_params, param_mappings.
    cbn [for_each]. f_equal. rewrite !M_bind_run.
    destruct (diff_mapping _ _ _ _ _ [] h) as [[out1|e|x] h1]; [|done..].
    rewrite !M_bind_run.
    destruct (diff_mapping _ _ _ _ _ out1 h1) as [[out2|e|x] h2]; [|done..].
    cbn. destruct (network params ≫= source_dest_check) as [check|];
      [destruct (negb _)|]; done. }
  destruct Hev1 as [->|(? & ? & ->)], Hev2 as [->|(r & ? & ? & ->)];
    (split; [cbn; lia|]); repeat constructor; eexists; eauto.
Qed.

(** ** Spec builder *)

(** X4: [determine_iam_role] lets no [ClientError] of the lookup escape;
    what it returns is either its argument, when that is a full ARN, and then
    no request is made, or the ARN that the profile lookup answered; and a
    [NoSuchEntity] answer ends in the fatal error that names the role. *)
Theorem determine_iam_role_outcome ec2 name_or_arn h :
  (∀ code, (determine_iam_role ec2 name_or_arn h).1 ≠ Raise (ClientError code))
  ∧ (∀ arn h', determine_iam_role ec2 name_or_arn h = (Ret arn, h') →
       (match_instance_profile_arn name_or_arn = true
        ∧ arn = name_or_arn ∧ h' = h)
       ∨ (match_instance_profile_arn name_or_arn = false
          ∧ ec2 h (get_instance_profile name_or_arn) = RStr arn
          ∧ h' = h ++ [Called (get_instance_profile name_or_arn) (RStr arn)]))
  ∧ (match_instance_profile_arn name_or_arn = false →
     ec2 h (get_instance_profile name_or_arn) = RRaise (ClientError "NoSuchEntity") →
     (determine_iam_role ec2 name_or_arn h).1
     = Exit (fail_json
         [("msg", JStr ("Could not find instance_role " +:+ name_or_arn));
          ("error_code", JStr "NoSuchEntity")])).
Proof.
  destruct (match_instance_profile_arn name_or_arn) eqn:Harn.
  - rewrite determine_iam_role_arn by done. cbn.
    split; [done|]. split; [|done]. intros arn h' [= <- <-]. by left.
  - rewrite determine_iam_role_lookup by done. cbn [fst].
    split; [|split].
    + intros code. by destruct (ec2 h _) as [| | | | | | | |[]].
    + intros arn h' Hrun. right.
      destruct (ec2 h _) as [| | | | | |s| |[]]; try done.
      injection Hrun as -> <-. done.
    + intros _ ->. done.
Qed.

Lemma determine_iam_role_outcome_witness :
  (determine_iam_role iam_provider "ghost-role" []).1
  = Exit (fail_json
      [("msg", JStr ("Could not find instance_role " +:+ "ghost-role"));
       ("error_code", JStr "NoSuchEntity")]).
Proof.
  apply (proj2 (proj2 (determine_iam_role_outcome iam_provider "ghost-role" [])));
    reflexivity.
Defined.

Lemma tower_callback_script_pure ps cs conf windows passwd h :
  (tower_callback_script ps cs conf windows passwd h).2 = h.
Proof.
  unfold tower_callback_script.
  destruct windows, passwd, (tower_address conf), (job_template_id conf),
    (host_config_key conf); reflexivity.
Qed.

(** X5: [build_top_level_options] makes no request, and when it returns
    options: there is an image identifier or a launch template; an
    [image_id] comes before the [image] dictionary; [user_data] comes before
    the callback descriptor, which is then not even checked; and a launch
    template has its identifier, has no name, and reaches the options with
    its identifier, name and version as they were given. *)
Theorem build_top_level_options_postcondition ps cs params h spec h' :
  build_top_level_options ps cs params h = (Ret spec, h') →
  h' = h
  ∧ (truthy_str (ImageId spec) = true
     ∨ truthy_launch_template (launch_template params) = true)
  ∧ (truthy_str (image_id params) = true →
     ImageId spec = image_id params ∧ RamdiskId spec = None ∧ KernelId spec = None)
  ∧ (∀ data, user_data params = Some data → UserData spec = Some data)
  ∧ match launch_template params with
    | Some lt =>
        truthy_str (launch_template_id lt) = true
        ∧ truthy_str (launch_template_name lt) = false
        ∧ LaunchTemplate_ spec
          = Some (mkLaunchTemplateSpec (launch_template_id lt)
                    (launch_template_name lt) (launch_template_version lt))
    | None => LaunchTemplate_ spec = None
    end.
Proof.
  unfold build_top_level_options.
  destruct (if truthy_str (image_id params) then _ else _) as [[i r] k] eqn:Himage.
  intros ([] & h1 & Hrequired & Hrun)%M_bind_Ret.
  apply M_bind_Ret in Hrun as (data & h2 & Hdata & Hrun).
  apply M_bind_Ret in Hrun as (lts & h3 & Hlt & Hrun).
  injection Hrun as <- <-. cbn.
  assert (h1 = h ∧ (truthy_str i = true
                    ∨ truthy_launch_template (launch_template params) = true))
    as [-> Hgiven].
  { destruct (truthy_str i); cbn in Hrequired.
    - injection Hrequired as <-. eauto.
    - destruct (truthy_launch_template _); cbn in Hrequired; [|done].
      injection Hrequired as <-. eauto. }
  assert (h2 = h ∧ ∀ d, user_data params = Some d → data = Some d) as [-> Huser].
  { destruct (user_data params) as [d|].
    - injection Hdata as <- <-. split; [done|]. by intros ? [= ->].
    - split; [|done]. destruct (tower_callback params) as [conf|].
      + apply M_bind_Ret in Hdata as (s & h4 & Hscript & Hret).
        injection Hret as _ <-.
        pose proof (tower_callback_script_pure ps cs conf (windows conf)
                      (set_password conf) h) as Hpure.
        by rewrite Hscript in Hpure.
      + by injection Hdata as _ <-. }
  assert (h3 = h ∧ match launch_template params with
                   | Some lt =>
                       truthy_str (launch_template_id lt) = true
                       ∧ truthy_str (launch_template_name lt) = false
                       ∧ lts = Some (mkLaunchTemplateSpec (launch_template_id lt)
                                       (launch_template_name lt)
                                       (launch_template_version lt))
                   | None => lts = None
                   end) as [-> Htemplate].
  { destruct (launch_template params) as [lt|]; [|by injection Hlt as <- <-].
    apply M_bind_Ret in Hlt as ([] & h4 & Hcheck & Hret).
    injection Hret as <- <-.
    destruct (truthy_str (launch_template_id lt)),
      (truthy_str (launch_template_name lt)); cbn in Hcheck; try done.
    by injection Hcheck as <-. }
  split; [done|]. split; [done|]. split; [|done].
  intros Hid. rewrite Hid in Himage. by injection Himage as <- <- <-.
Qed.

Lemma build_top_level_options_postcondition_witness :
  ∃ spec h',
    build_top_level_options no_powershell_script no_callback_script
      template_params [] = (Ret spec, h')
    ∧ h' = []
    ∧ UserData spec = Some "#!/bin/sh"
    ∧ LaunchTemplate_ spec
      = Some (mkLaunchTemplateSpec (Some "lt-0abc") None (Some "3")).
Proof.
  eexists _, _. split; [vm_compute; reflexivity|].
  destruct (build_top_level_options_postcondition no_powershell_script
              no_callback_script template_params [] _ _ eq_refl)
    as (Hh & _ & _ & Hdata & _ & _ & Hlt).
  split; [exact Hh|]. split; [by apply Hdata|exact Hlt].
Defined.

(** X6: a creation spec that [build_run_instance_spec] returns asks for
    exactly one instance, carries as its client token the identifier that
    [uuid.uuid4] has just answered, has the configured instance type and the
    converted volumes, and has no instance profile: the configuration then
    has no instance role. *)
Theorem build_run_instance_spec_postcondition
    ec2 transient retries camel ps cs params h spec h' :
  build_run_instance_spec ec2 transient retries camel ps cs params h = (Ret spec, h') →
  MinCount spec = 1%Z ∧ MaxCount spec = 1%Z
  ∧ ec2 h uuid4_hex = RStr (ClientToken spec)
  ∧ InstanceType spec = instance_type params
  ∧ BlockDeviceMappings spec = camel <$> default [] (volumes params)
  ∧ IamInstanceProfile spec = None
  ∧ truthy_str (instance_role params) = false.
Proof.
  unfold build_run_instance_spec.
  intros (token & h1 & Htoken & Hrun)%M_bind_Ret.
  apply M_bind_Ret in Hrun as (hex & h2 & Hhex & Hrun).
  apply M_bind_Ret in Hrun as (nis & h3 & _ & Hrun).
  apply M_bind_Ret in Hrun as (options & h4 & _ & Hrun).
  apply M_bind_Ret in Hrun as (tagspecs & h5 & _ & Hrun).
  apply M_bind_Ret in Hrun as (iam & h6 & Hiam & Hrun).
  injection Hrun as <- <-. cbn.
  rewrite call_run in Htoken. injection Htoken as Htoken _.
  assert (ec2 h uuid4_hex = RStr hex) as ->.
  { destruct (ec2 h uuid4_hex); cbn in Htoken; try done;
      injection Htoken as <-; try done. by injection Hhex as <- _. }
  destruct (truthy_str (instance_role params)).
  - by apply M_bind_Ret in Hiam as (? & ? & ? & _).
  - by injection Hiam as <- _.
Qed.

Lemma build_run_instance_spec_postcondition_witness :
  ∃ spec h',
    build_run_instance_spec iam_provider throttling 10 id no_powershell_script
      no_callback_script template_params [] = (Ret spec, h')
    ∧ MinCount spec = 1%Z ∧ MaxCount spec = 1%Z
    ∧ iam_provider [] uuid4_hex = RStr (ClientToken spec)
    ∧ InstanceType spec = "t2.micro"
    ∧ BlockDeviceMappings spec = id <$> []
    ∧ IamInstanceProfile spec = None
    ∧ truthy_str None = false.
Proof.
  eexists _, _. split; [vm_compute; reflexivity|].
  eapply (build_run_instance_spec_postcondition iam_provider throttling 10 id
            no_powershell_script no_callback_script template_params []).
  vm_compute. reflexivity.
Defined.

(** X7: the tag specifications that [build_instance_tags] returns are two,
    for volumes and for the instance, with one and the same tag list, in
    which no key occurs twice; a configured [name] is there under the key
    [Name], whatever the configured tags say of that key; and every other
    key has the value of the configured tags. No request is made. *)
Theorem build_instance_tags_postcondition params h specs h' :
  build_instance_tags params h = (Ret specs, h') →
  h' = h
  ∧ ∃ l,
      specs = [mkTagSpecification "volume" l; mkTagSpecification "instance" l]
      ∧ NoDup l.*1
      ∧ (∀ n, name params = Some n → ("Name", n) ∈ l)
      ∧ ∀ k v, (k ≠ "Name" ∨ name params = None) →
          (k, v) ∈ l ↔ default ∅ (tags params) !! k = Some v.
Proof.
  unfold build_instance_tags, ansible_dict_to_boto3_tag_list.
  destruct (name params) as [n|] eqn:Hname.
  - intros [= <- <-]. split; [done|]. eexists. split; [done|].
    split; [apply NoDup_fst_map_to_list|]. split.
    + intros ? [= <-]. apply elem_of_map_to_list, lookup_insert_eq.
    + intros k v [Hk|[=]]. by rewrite elem_of_map_to_list, lookup_insert_ne.
  - destruct (tags params) as [tags|]; [|done].
    intros [= <- <-]. split; [done|]. eexists. split; [done|].
    split; [apply NoDup_fst_map_to_list|]. split; [done|].
    intros k v _. by rewrite elem_of_map_to_list.
Qed.

Lemma build_instance_tags_postcondition_witness :
  ∃ specs h',
    build_instance_tags template_params [] = (Ret specs, h')
    ∧ h' = []
    ∧ ∃ l,
        specs = [mkTagSpecification "volume" l; mkTagSpecification "instance" l]
        ∧ NoDup l.*1
        ∧ (∀ n, Some "web" = Some n → ("Name", n) ∈ l)
        ∧ ∀ k v, (k ≠ "Name" ∨ Some "web" = None) →
            (k, v) ∈ l
            ↔ ({[ "env" := "prod"; "Name" := "old" ]} : gmap string string) !! k
              = Some v.
Proof.
  eexists _, _. split; [reflexivity|].
  apply (build_instance_tags_postcondition template_params []). reflexivity.
Defined.

Lemma build_interface_spec_run params idx inty h :
  (build_interface_spec params idx inty h).2 = h
  ∧ ∀ spec, (build_interface_spec params idx inty h).1 = Ret spec →
      DeviceIndex spec = idx
      ∧ InterfaceNetworkInterfaceId spec = interface_ref_id inty
      ∧ (∀ eni, interface_ref_id inty = Some eni →
           spec = attach_existing_spec idx eni)
      ∧ (interface_ref_id inty = None →
         truthy_str (InterfaceSubnetId spec) = true
         ∧ is_Some (DeleteOnTermination spec)).
Proof.
  unfold build_interface_spec.
  destruct inty as [eni|d]; cbn.
  { split; [done|]. intros spec [= <-]. cbn. split; [done|]. split; [done|].
    split; [by intros ? [= <-]|done]. }
  destruct (interface_id d) as [eni|]; cbn.
  { split; [done|]. intros spec [= <-]. cbn. split; [done|]. split; [done|].
    split; [by intros ? [= <-]|done]. }
  destruct (truthy_str _) eqn:Hsubnet; cbn; [|done].
  split; [done|]. intros spec [= <-]. cbn. split; [done|]. split; [done|].
  split; [done|]. intros _. split; [done|]. eauto.
Qed.

Lemma build_interface_specs_run params ints : ∀ idx h,
  (build_interface_specs params idx ints h).2 = h
  ∧ ∀ specs, (build_interface_specs params idx ints h).1 = Ret specs →
      length specs = length ints
      ∧ ∀ i inty spec, ints !! i = Some inty → specs !! i = Some spec →
          (build_interface_spec params (idx + i) inty h).1 = Ret spec.
Proof.
  induction ints as [|inty ints IH]; intros idx h; cbn [build_interface_specs].
  { split; [done|]. intros specs [= <-]. split; [done|]. by intros []. }
  rewrite M_bind_run.
  destruct (build_interface_spec_run params idx inty h) as [Hh _].
  destruct (build_interface_spec params idx inty h) as [[spec|e|x] h1] eqn:Hfirst;
    cbn in Hh; subst h1; [|done..].
  rewrite M_bind_run. destruct (IH (S idx) h) as [Hh Hrest].
  destruct (build_interface_specs params (S idx) ints h) as [[specs|e|x] h1];
    cbn in Hh; subst h1; [|done..].
  cbn. split; [done|]. intros ? [= <-].
  destruct (Hrest _ eq_refl) as [Hlen Hlookup]. split; [by rewrite length_cons, Hlen|].
  intros [|i] inty' spec'; cbn.
  - intros [= <-] [= <-]. by rewrite Nat.add_0_r, Hfirst.
  - intros Hi Hs. rewrite <- Nat.add_succ_comm. by eapply Hlookup.
Qed.

(** X8: for a configuration with a list of interfaces, [build_network_spec]
    makes no request, and the list that it returns has one specification for
    each entry, in order: the specification of an entry has the position of
    the entry as its device index; for an entry that names an interface it
    holds that identifier and nothing else, and for any other entry it holds
    a subnet and a delete-on-termination flag. *)
Theorem build_network_spec_interfaces
    ec2 transient retries params net ints h specs h' :
  network params = Some net → interfaces net = Some ints → ints ≠ [] →
  build_network_spec ec2 transient retries params h = (Ret specs, h') →
  h' = h
  ∧ length specs = length ints
  ∧ ∀ i inty spec, ints !! i = Some inty → specs !! i = Some spec →
      DeviceIndex spec = i
      ∧ (∀ eni, interface_ref_id inty = Some eni → spec = attach_existing_spec i eni)
      ∧ (interface_ref_id inty = None →
         truthy_str (InterfaceSubnetId spec) = true
         ∧ is_Some (DeleteOnTermination spec)).
Proof.
  intros Hnet Hints Hne. unfold build_network_spec. rewrite Hnet. cbn [default from_option id].
  rewrite Hints. destruct ints as [|inty0 ints0]; [done|].
  cbn [truthy_list negb default from_option id].
  intros Hrun.
  destruct (build_interface_specs_run params (inty0 :: ints0) 0 h) as [Hh Hspecs].
  rewrite Hrun in Hh, Hspecs. cbn in Hh. subst h'.
  destruct (Hspecs _ eq_refl) as [Hlen Hlookup].
  split; [done|]. split; [done|].
  intros i inty spec Hi Hs. specialize (Hlookup i inty spec Hi Hs).
  destruct (build_interface_spec_run params (0 + i) inty h) as [_ Hone].
  destruct (Hone _ Hlookup) as (? & ? & ? & ?). done.
Qed.

Lemma build_network_spec_interfaces_witness :
  ∃ specs h',
    build_network_spec quiet_provider throttling 10 interfaces_params []
    = (Ret specs, h')
    ∧ h' = []
    ∧ length specs = length sample_interfaces
    ∧ ∀ i inty spec, sample_interfaces !! i = Some inty → specs !! i = Some spec →
        DeviceIndex spec = i
        ∧ (∀ eni, interface_ref_id inty = Some eni →
             spec = attach_existing_spec i eni)
        ∧ (interface_ref_id inty = None →
           truthy_str (InterfaceSubnetId spec) = true
           ∧ is_Some (DeleteOnTermination spec)).
Proof.
  eexists _, _. split; [reflexivity|].
  eapply (build_network_spec_interfaces quiet_provider throttling 10
            interfaces_params _ sample_interfaces []);
    [reflexivity|reflexivity|discriminate|reflexivity].
Defined.

(** X9: for a configuration without a list of interfaces, what
    [build_network_spec] returns is one interface with device index 0 and a
    subnet, which is the configured subnet when there is one; the interface
    lists security groups exactly when the configuration names some; with a
    configured subnet and no security group no request is made. *)
Theorem build_network_spec_single ec2 transient retries params h specs h' :
  truthy_list (interfaces (default empty_network (network params))) = false →
  build_network_spec ec2 transient retries params h = (Ret specs, h') →
  ∃ spec subnet,
    specs = [spec]
    ∧ DeviceIndex spec = 0
    ∧ InterfaceSubnetId spec = Some subnet
    ∧ InterfaceNetworkInterfaceId spec = None
    ∧ (truthy_str (vpc_subnet_id params) = true →
       vpc_subnet_id params = Some subnet)
    ∧ (is_Some (Groups spec) ↔
       truthy_str (security_group params) || truthy_list (security_groups params)
       = true)
    ∧ (truthy_str (vpc_subnet_id params) = true →
       truthy_str (security_group params) || truthy_list (security_groups params)
       = false →
       h' = h).
Proof.
  intros Hints. unfold build_network_spec. rewrite Hints. cbn [negb].
  intros (subnet & h1 & Hsubnet & Hrun)%M_bind_Ret.
  apply M_bind_Ret in Hrun as (groups & h2 & Hgroups & Hrun).
  injection Hrun as <- <-.
  exists (mkInterfaceSpec 0 (assign_public_ip (default empty_network (network params)))
            (Some subnet)
            (if truthy_str (private_ip_address (default empty_network (network params)))
             then private_ip_address (default empty_network (network params))
             else None)
            groups None None None None), subnet.
  cbn. do 4 (split; [done|]).
  destruct (truthy_str (vpc_subnet_id params)) eqn:Hgiven.
  - injection Hsubnet as <- <-. split.
    { intros _. destruct (vpc_subnet_id params); [done|discriminate]. }
    destruct (_ || _).
    + apply M_bind_Ret in Hgroups as (found & h3 & _ & [= <- _]).
      split; [by split; eauto|done].
    + injection Hgroups as <- <-. split; [|done]. split; [by intros []|done].
  - split; [done|]. split; [|done].
    destruct (_ || _).
    + apply M_bind_Ret in Hgroups as (found & h3 & _ & [= <- _]). by split; eauto.
    + injection Hgroups as <- _. split; [by intros []|done].
Qed.

Lemma build_network_spec_single_witness :
  ∃ specs h',
    build_network_spec quiet_provider throttling 10 template_params []
    = (Ret specs, h')
    ∧ ∃ spec subnet,
        specs = [spec]
        ∧ DeviceIndex spec = 0
        ∧ InterfaceSubnetId spec = Some subnet
        ∧ InterfaceNetworkInterfaceId spec = None
        ∧ (truthy_str (vpc_subnet_id template_params) = true →
           vpc_subnet_id template_params = Some subnet)
        ∧ (is_Some (Groups spec) ↔
           truthy_str (security_group template_params)
           || truthy_list (security_groups template_params) = true)
        ∧ (truthy_str (vpc_subnet_id template_params) = true →
           truthy_str (security_group template_params)
           || truthy_list (security_groups template_params) = false →
           h' = []).
Proof.
  eexists _, _. split; [reflexivity|].
  eapply (build_network_spec_single quiet_provider throttling 10 template_params []);
    reflexivity.
Defined.

(** X10: for a configuration without a list of interfaces and without a
    subnet, when the provider lists no default VPC, [build_network_spec] ends
    in the fatal error that asks for a subnet, after the one request for the
    default VPC. *)
Theorem build_network_spec_no_default_vpc ec2 transient retries params h :
  truthy_list (interfaces (default empty_network (network params))) = false →
  truthy_str (vpc_subnet_id params) = false →
  ec2 h (describe_vpcs
           (ansible_dict_to_boto3_filter_list {[ "isDefault" := ["true"] ]}))
  = RVpcs [] →
  build_network_spec ec2 transient retries params h
  = (Exit (fail_json [("msg", JStr
       "No default subnet could be found - you must include a VPC subnet ID (vpc_subnet_id parameter) to create an instance")]),
     h ++ [Called (describe_vpcs
                     (ansible_dict_to_boto3_filter_list {[ "isDefault" := ["true"] ]}))
             (RVpcs [])]).
Proof.
  intros Hints Hsubnet Hvpcs. unfold build_network_spec.
  rewrite Hints, Hsubnet. cbn [negb].
  assert (get_default_vpc ec2 transient retries h
          = (Ret None,
             h ++ [Called (describe_vpcs
                             (ansible_dict_to_boto3_filter_list
                                {[ "isDefault" := ["true"] ]}))
                     (RVpcs [])])) as Hvpc.
  { unfold get_default_vpc, jittered_backoff. apply backoff_Ret.
    by rewrite M_bind_run, call_run, Hvpcs. }
  by rewrite !M_bind_run, Hvpc.
Qed.

Lemma build_network_spec_no_default_vpc_witness :
  build_network_spec quiet_provider throttling 10
    (sample_params (Some "ami-0abc") None None None None None None) []
  = (Exit (fail_json [("msg", JStr
       "No default subnet could be found - you must include a VPC subnet ID (vpc_subnet_id parameter) to create an instance")]),
     [] ++ [Called (describe_vpcs
                      (ansible_dict_to_boto3_filter_list {[ "isDefault" := ["true"] ]}))
              (RVpcs [])]).
Proof.
  apply (build_network_spec_no_default_vpc quiet_provider throttling 10
           (sample_params (Some "ami-0abc") None None None None None None) []);
    reflexivity.
Defined.

Lemma dedup_groups_NoDup (found : list SecurityGroup) :
  NoDup (GroupId <$>
           (map_to_list (dict_of_pairs ((λ g, (GroupId g, g)) <$> found))).*2)
  ∧ ∀ g, g ∈ (map_to_list (dict_of_pairs ((λ g, (GroupId g, g)) <$> found))).*2 →
      g ∈ found.
Proof.
  set (m := dict_of_pairs ((λ g, (GroupId g, g)) <$> found)).
  assert (∀ k g, (k, g) ∈ map_to_list m → k = GroupId g ∧ g ∈ found) as Hm.
  { intros k g Hin%elem_of_map_to_list%dict_of_pairs_lookup.
    apply list_elem_of_fmap in Hin as (g' & [= -> ->] & Hg). done. }
  split.
  - assert (GroupId <$> (map_to_list m).*2 = (map_to_list m).*1) as ->;
      [|apply NoDup_fst_map_to_list].
    rewrite <- list_fmap_compose. apply Forall_fmap_ext, Forall_forall.
    intros [k g] Hin. cbn. by destruct (Hm k g Hin) as [-> _].
  - intros g ([k g'] & -> & Hin)%list_elem_of_fmap. by destruct (Hm k g' Hin).
Qed.

(** X11: the security groups that [discover_security_groups] returns have
    distinct identifiers: a group found both by its identifier and by its
    name is returned once. *)
Theorem discover_security_groups_distinct ec2 group groups subnet_id h found h' :
  discover_security_groups ec2 group groups subnet_id h = (Ret found, h') →
  NoDup (GroupId <$> found).
Proof.
  unfold discover_security_groups.
  intros (sub & h1 & _ & Hrun)%M_bind_Ret.
  apply M_bind_Ret in Hrun as (vpc & h2 & _ & Hrun).
  destruct (match group with Some ((String _ _) as g) => _ | _ => _ end)
    as [id_filters name_filters].
  destruct (match groups with Some ((_ :: _) as gs) => _ | _ => _ end)
    as [id_filters' name_filters'].
  apply M_bind_Ret in Hrun as (all_found & h3 & _ & Hrun).
  injection Hrun as <- _. apply dedup_groups_NoDup.
Qed.

Lemma discover_security_groups_distinct_witness :
  ∃ found h',
    discover_security_groups groups_provider None (Some ["sg-1"; "web"])
      "subnet-1" [] = (Ret found, h')
    ∧ NoDup (GroupId <$> found).
Proof.
  eexists _, _. split; [vm_compute; reflexivity|].
  eapply (discover_security_groups_distinct groups_provider None
            (Some ["sg-1"; "web"]) "subnet-1" []).
  vm_compute. reflexivity.
Defined.

(** ** Histories of composed code *)

Lemma emits_mono {A} (Q Q' : Event → Prop) (m : M A) :
  (∀ e, Q e → Q' e) → emits Q m → emits Q' m.
Proof.
  intros HQ Hm h. destruct (Hm h) as (t & Ht & Hall). exists t.
  split; [done|]. eapply Forall_impl; eauto.
Qed.

Lemma emits_silent {A} Q (m : M A) : (∀ h, (m h).2 = h) → emits Q m.
Proof. intros Hm h. exists []. rewrite Hm, app_nil_r. by split. Qed.

Lemma emits_mret {A} Q (a : A) : emits Q (mret a).
Proof. by apply emits_silent. Qed.

Lemma emits_raise {A} Q e : emits Q (@raise A e).
Proof. by apply emits_silent. Qed.

Lemma emits_sys_exit {A} Q x : emits Q (@sys_exit A x).
Proof. by apply emits_silent. Qed.

Lemma emits_warn Q msg : Q (Warned msg) → emits Q (warn msg).
Proof. intros HQ h. exists [Warned msg]. split; [done|]. by constructor. Qed.

Lemma emits_call Q ec2 c : (∀ r, Q (Called c r)) → emits Q (call ec2 c).
Proof.
  intros HQ h. exists [Called c (ec2 h c)]. rewrite call_run.
  split; [done|]. by constructor.
Qed.

Lemma emits_bind_post {A B} Q (P : A → Prop) (m : M A) (k : A → M B) :
  emits Q m → (∀ h a h', m h = (Ret a, h') → P a) →
  (∀ a, P a → emits Q (k a)) → emits Q (m ≫= k).
Proof.
  intros Hm HP Hk h. rewrite M_bind_run. destruct (Hm h) as (t1 & Ht1 & HQ1).
  specialize (HP h).
  destruct (m h) as [[a|e|x] h1]; cbn in Ht1; subst h1; [|by exists t1..].
  destruct (Hk a (HP _ _ eq_refl) (h ++ t1)) as (t2 & Ht2 & HQ2). exists (t1 ++ t2).
  split; [by rewrite Ht2, app_assoc|by apply Forall_app].
Qed.

Lemma emits_bind {A B} Q (m : M A) (k : A → M B) :
  emits Q m → (∀ a, emits Q (k a)) → emits Q (m ≫= k).
Proof.
  intros Hm Hk. apply (emits_bind_post Q (λ _, True)); [done|done|]. intros a _. apply Hk.
Qed.

Lemma emits_try_except {A} Q (m : M A) handler :
  emits Q m → (∀ e k, handler e = Some k → emits Q k) →
  emits Q (try_except m handler).
Proof.
  intros Hm Hk h. unfold try_except. destruct (Hm h) as (t1 & Ht1 & HQ1).
  destruct (m h) as [[a|e|x] h1]; cbn in Ht1; subst h1; [by exists t1| |by exists t1].
  destruct (handler e) as [k|] eqn:He; [|by exists t1].
  destruct (Hk e k He (h ++ t1)) as (t2 & Ht2 & HQ2). exists (t1 ++ t2).
  split; [by rewrite Ht2, app_assoc|by apply Forall_app].
Qed.

Lemma emits_for_each {A S} Q (l : list A) (body : A → S → M S) :
  (∀ x s, x ∈ l → emits Q (body x s)) → ∀ s, emits Q (for_each l body s).
Proof.
  induction l as [|x l IH]; intros Hbody s; cbn [for_each]; [apply emits_mret|].
  apply emits_bind; [apply Hbody; set_solver|].
  intros s'. apply IH. intros y s'' Hy. apply Hbody. set_solver.
Qed.

Lemma emits_backoff {A} Q transient n (f : M A) :
  emits Q f → emits Q (backoff transient n f).
Proof. intros Hf h. by apply backoff_added_Forall. Qed.

Lemma emits_added {A} Q (m : M A) h : emits Q m → Forall Q (added h (m h).2).
Proof. intros Hm. destruct (Hm h) as (t & -> & Hall). by rewrite added_app. Qed.

Lemma emits_extends {A} Q (m : M A) h o h' :
  emits Q m → m h = (o, h') → ∃ t, h' = h ++ t ∧ Forall Q t.
Proof. intros Hm Hrun. destruct (Hm h) as (t & Ht & Hall). rewrite Hrun in Ht. eauto. Qed.

Lemma backoff_Ret_attempt {A} Q transient n (f : M A) h a h' :
  emits Q f → backoff transient n f h = (Ret a, h') →
  ∃ t0, f (h ++ t0) = (Ret a, h').
Proof.
  intros Hf Hrun.
  destruct (backoff_last_attempt transient n f) with (h := h) as (t0 & Ht0).
  { intros h0. destruct (Hf h0) as (t & Ht & _). eauto. }
  exists t0. by rewrite <- Ht0.
Qed.

(** ** Requests of the resource locator and of the controller *)

Lemma normalize_filter_keys_emits Q keys : ∀ filters,
  emits Q (normalize_filter_keys keys filters).
Proof.
  induction keys as [|key rest IH]; intros filters; cbn [normalize_filter_keys];
    [apply emits_mret|].
  destruct (negb _); [|apply IH].
  apply emits_bind; [|intros [v popped]; apply IH].
  unfold dict_pop. destruct (_ !! _); [apply emits_mret|apply emits_raise].
Qed.

Lemma paginate_instances_emits (Q : Event → Prop) ec2 c :
  (∀ r, Q (Called c r)) → emits Q (paginate_instances ec2 c).
Proof.
  intros HQ h. exists [Called c (ec2 h c)].
  split; [apply paginate_instances_trace|]. by constructor.
Qed.

Lemma find_instances_emits (Q : Event → Prop) ec2 ids filters :
  (∀ e, describes_instances e → Q e) → emits Q (find_instances ec2 ids filters).
Proof.
  intros HQ. unfold find_instances. destruct (truthy_list ids).
  - apply paginate_instances_emits. intros r. by apply HQ.
  - destruct filters as [f|]; [|apply emits_sys_exit].
    apply emits_bind; [apply normalize_filter_keys_emits|].
    intros f'. apply paginate_instances_emits. intros r. by apply HQ.
Qed.

Lemma call_ids_emits (Q : Event → Prop) ec2 c :
  (∀ r, Q (Called c r)) → emits Q (call_ids ec2 c).
Proof.
  intros HQ. unfold call_ids. apply emits_bind; [by apply emits_call|].
  intros []; first [apply emits_mret|apply emits_raise].
Qed.

Lemma change_one_emits (Q : Event → Prop) ec2 desired_state inst sets :
  (∀ r, desired_state = "TERMINATED" →
        Q (Called (terminate_instances [InstanceId inst]) r)) →
  (∀ r, desired_state = "STOPPED" →
        Q (Called (stop_instances [InstanceId inst]) r)) →
  (∀ r, desired_state = "RUNNING" →
        Q (Called (start_instances [InstanceId inst]) r)) →
  emits Q (change_one ec2 desired_state inst sets).
Proof.
  intros Hterminate Hstop Hstart. destruct sets as [changed0 unchanged].
  unfold change_one.
  destruct (String.eqb_spec desired_state "TERMINATED") as [Ht|_],
    (String.eqb_spec desired_state "STOPPED") as [Hs|_],
    (String.eqb_spec desired_state "RUNNING") as [Hr|_]; cbn [andb];
    try destruct (String.eqb (StateName inst) "stopping").
  all: apply emits_try_except;
    [|intros e k; destruct (is_boto_error e); [intros [= <-]; apply emits_mret|done]].
  all: repeat first [ apply emits_mret
                    | apply call_ids_emits; solve [auto]
                    | apply emits_bind; [|intros ?] ].
Qed.

Lemma await_instances_emits (Q : Event → Prop) ec2 params ids state :
  (∀ w i d n r, Q (Called (waiter_wait w i d n) r)) → (∀ msg, Q (Warned msg)) →
  emits Q (await_instances ec2 params ids state).
Proof.
  intros Hwait Hwarn h.
  destruct (await_instances_added ec2 params ids state h) as (t & Ht & Hall).
  exists t. split; [done|]. eapply Forall_impl; [exact Hall|].
  intros [[]|]; cbn; auto; done.
Qed.

Lemma change_instance_state_body_emits ec2 params filters desired_state :
  emits (transition_for desired_state)
    (change_instance_state_body ec2 params filters desired_state).
Proof.
  unfold change_instance_state_body.
  apply emits_bind; [apply find_instances_emits; by intros [[]|]|].
  intros instances. apply emits_bind.
  { apply emits_for_each. intros inst sets _.
    apply change_one_emits; intros r ->; by cbn. }
  intros [changed unchanged]. apply emits_bind.
  { case_bool_decide; [|apply emits_mret].
    apply await_instances_emits; by cbn. }
  intros _. apply emits_bind; [apply find_instances_emits; by intros [[]|]|].
  intros. apply emits_mret.
Qed.

(** X12: towards a desired state, [change_instance_state] asks only for
    the transition that the state names, one instance at a time: it
    terminates only for ["TERMINATED"], stops only for ["STOPPED"] and starts
    only for ["RUNNING"]; beside that it describes instances and waits, and
    makes no other request. *)
Theorem change_instance_state_requests
    ec2 params transient retries filters desired_state h :
  Forall (transition_for desired_state)
    (added h (change_instance_state ec2 params transient retries
                filters desired_state h).2).
Proof.
  apply emits_added. unfold change_instance_state, jittered_backoff.
  apply emits_backoff, change_instance_state_body_emits.
Qed.

Lemma acknowledged_app_l t1 t2 id : acknowledged t1 id → acknowledged (t1 ++ t2) id.
Proof. intros (c & l & Hin & ?). exists c, l. rewrite elem_of_app. auto. Qed.

Lemma acknowledged_app_r t1 t2 id : acknowledged t2 id → acknowledged (t1 ++ t2) id.
Proof. intros (c & l & Hin & ?). exists c, l. rewrite elem_of_app. auto. Qed.

Lemma try_except_Ret {A} (m : M A) handler h a h' :
  try_except m handler h = (Ret a, h') →
  m h = (Ret a, h')
  ∨ ∃ e k h1, m h = (Raise e, h1) ∧ handler e = Some k ∧ k h1 = (Ret a, h').
Proof.
  unfold try_except. destruct (m h) as [[a0|e|x] h1]; [by left| |done].
  destruct (handler e) as [k|] eqn:He; [|done]. right. eauto 6.
Qed.

Lemma call_ids_Ret ec2 c h l h' :
  call_ids ec2 c h = (Ret l, h') → h' = h ++ [Called c (RIds l)].
Proof.
  unfold call_ids. rewrite M_bind_run, call_run.
  destruct (ec2 h c) eqn:Hr; cbn; try done. by intros [= <- <-].
Qed.

Lemma transition_step_Ret ec2 (b : bool) c (changed : gset string) h changed' h' :
  transition_request c →
  (if b then resp ← call_ids ec2 c; mret (changed ∪ list_to_set resp)
   else mret changed) h = (Ret changed', h') →
  ∃ t, h' = h ++ t ∧ ∀ id, id ∈ changed' → id ∈ changed ∨ acknowledged t id.
Proof.
  intros Hc. destruct b.
  - intros (l & h1 & ->%call_ids_Ret & [= <- <-])%M_bind_Ret.
    eexists. split; [done|]. intros id [?|Hid%elem_of_list_to_set]%elem_of_union;
      [by left|right].
    exists c, l. split; [by apply list_elem_of_singleton|done].
  - intros [= <- <-]. exists []. rewrite app_nil_r. split; [done|]. by left.
Qed.

Lemma change_one_Ret ec2 desired_state inst changed unchanged h changed' unchanged' h' :
  change_one ec2 desired_state inst (changed, unchanged) h
  = (Ret (changed', unchanged'), h') →
  ∃ t, h' = h ++ t ∧ ∀ id, id ∈ changed' → id ∈ changed ∨ acknowledged t id.
Proof.
  intros Hrun.
  destruct (emits_extends (λ _, True) _ _ _ _
              (change_one_emits _ ec2 desired_state inst (changed, unchanged)
                 (λ _ _, I) (λ _ _, I) (λ _ _, I)) Hrun) as (t & -> & _).
  exists t. split; [done|]. unfold change_one in Hrun.
  apply try_except_Ret in Hrun as [Hrun|(e & k & h1 & _ & Hk & Hrun)]; cycle 1.
  { destruct (is_boto_error e); [|done]. injection Hk as <-.
    injection Hrun as <- _ _. by left. }
  apply M_bind_Ret in Hrun as (changed1 & h1 & Hstep1 & Hrun).
  apply transition_step_Ret in Hstep1 as (t1 & -> & Hack1); [|done].
  destruct (_ && _).
  { injection Hrun as <- _ Ht. rewrite <- (app_nil_r (h ++ t1)), <- app_assoc in Ht.
    apply app_inv_head in Ht as <-. rewrite app_nil_r. done. }
  apply M_bind_Ret in Hrun as (changed2 & h2 & Hstep2 & Hrun).
  apply transition_step_Ret in Hstep2 as (t2 & -> & Hack2); [|done].
  apply M_bind_Ret in Hrun as (changed3 & h3 & Hstep3 & Hrun).
  apply transition_step_Ret in Hstep3 as (t3 & -> & Hack3); [|done].
  injection Hrun as <- _ Ht. rewrite <- !app_assoc in Ht.
  apply app_inv_head in Ht as <-.
  intros id [[[?|?]%Hack1|?]%Hack2|?]%Hack3; [by left|right..].
  - by apply acknowledged_app_l.
  - by apply acknowledged_app_r, acknowledged_app_l.
  - by do 2 apply acknowledged_app_r.
Qed.

Lemma change_loop_Ret ec2 desired_state l : ∀ changed unchanged h changed' unchanged' h',
  for_each l (change_one ec2 desired_state) (changed, unchanged) h
  = (Ret (changed', unchanged'), h') →
  ∃ t, h' = h ++ t ∧ ∀ id, id ∈ changed' → id ∈ changed ∨ acknowledged t id.
Proof.
  induction l as [|inst l IH]; intros changed unchanged h changed' unchanged' h';
    cbn [for_each].
  { intros [= <- <- <-]. exists []. rewrite app_nil_r. split; [done|]. by left. }
  intros ([changed1 unchanged1] & h1 & Hone & Hrest)%M_bind_Ret.
  apply change_one_Ret in Hone as (t1 & -> & Hack1).
  apply IH in Hrest as (t2 & -> & Hack2).
  exists (t1 ++ t2). split; [by rewrite app_assoc|].
  intros id [[?|?]%Hack1|?]%Hack2; [by left|right..].
  - by apply acknowledged_app_l.
  - by apply acknowledged_app_r.
Qed.

(** X13: [change_instance_state] reports an instance as changed only if
    the provider acknowledged a transition of it in answer to one of the
    requests of the call; the identifiers reported as failed are distinct,
    and none of them is reported as changed. *)
Theorem change_instance_state_changed_acknowledged
    ec2 params transient retries filters desired_state h changed failed instances h' :
  change_instance_state ec2 params transient retries filters desired_state h
  = (Ret (changed, failed, instances), h') →
  (∀ id, id ∈ changed → acknowledged (added h h') id)
  ∧ NoDup failed
  ∧ ∀ id, id ∈ failed → id ∉ changed.
Proof.
  unfold change_instance_state, jittered_backoff. intros Hrun.
  destruct (backoff_Ret_attempt _ _ _ _ _ _ _
              (change_instance_state_body_emits ec2 params filters desired_state)
              Hrun) as (t0 & Hbody).
  unfold change_instance_state_body in Hbody.
  apply M_bind_Ret in Hbody as (located & h1 & Hfind & Hbody).
  apply (emits_extends (λ _, True)) in Hfind as (t1 & -> & _);
    [|by apply find_instances_emits].
  apply M_bind_Ret in Hbody as ([changed1 unchanged1] & h2 & Hloop & Hbody).
  apply change_loop_Ret in Hloop as (t2 & -> & Hack).
  apply M_bind_Ret in Hbody as ([] & h3 & Hwait & Hbody).
  apply (emits_extends (λ _, True)) in Hwait as (t3 & -> & _);
    [|case_bool_decide; [by apply await_instances_emits|apply emits_mret]].
  apply M_bind_Ret in Hbody as (found & h4 & Hfind & Hbody).
  apply (emits_extends (λ _, True)) in Hfind as (t4 & -> & _);
    [|by apply find_instances_emits].
  injection Hbody as <- <- <- <-.
  split; [|split; [apply NoDup_elements|set_solver]].
  intros id [Hid|Hid]%Hack; [set_solver|].
  rewrite <- !app_assoc, added_app.
  by apply acknowledged_app_r, acknowledged_app_r, acknowledged_app_l.
Qed.

Lemma change_instance_state_changed_acknowledged_witness :
  ∃ changed failed instances h',
    change_instance_state mixed_provider
      (sample_params None None None None None None (Some stopped_filters))
      throttling 10 (Some stopped_filters) "STOPPED" []
    = (Ret (changed, failed, instances), h')
    ∧ (∀ id, id ∈ changed → acknowledged (added [] h') id)
    ∧ NoDup failed
    ∧ ∀ id, id ∈ failed → id ∉ changed.
Proof.
  eexists _, _, _, _. split; [vm_compute; reflexivity|].
  eapply (change_instance_state_changed_acknowledged mixed_provider
            (sample_params None None None None None None (Some stopped_filters))
            throttling 10 (Some stopped_filters) "STOPPED" []).
  vm_compute. reflexivity.
Defined.

(** X14: what [await_instances] does. Without the [wait] option it
    returns at once, without a request. With it, a state that has no waiter
    ends in the fatal error that names the state, without a request; for a
    state that has one, exactly one wait is requested, on the given
    instances, with the waiter of the state, a delay of 15 seconds and
    [wait_timeout // 15] attempts. A wait that times out ends in one warning,
    which names the instances and the state before the text of the
    exception, and in a normal return; a waiter configuration error ends in a
    fatal error; so neither waiter exception is raised; any other exception
    of the wait propagates. *)
Theorem await_instances_outcome ec2 params ids state h :
  (wait params = false → await_instances ec2 params ids state h = (Ret tt, h))
  ∧ (wait params = true → (∀ waiter, (state, waiter) ∉ state_opts) →
     await_instances ec2 params ids state h
     = (Exit (fail_json
          [("msg", JStr ("Cannot wait for state " +:+ state +:+ ", invalid state"))]),
        h))
  ∧ (wait params = true → ∀ waiter, (state, waiter) ∈ state_opts →
     let c := waiter_wait waiter ids 15 (wait_timeout params `div` 15) in
     match ec2 h c with
     | RRaise WaiterError =>
         ∃ text,
           await_instances ec2 params ids state h
           = (Ret tt,
              h ++ [Called c (RRaise WaiterError);
                    Warned ("Instances " +:+ join ", " ids
                            +:+ " took too long to reach state " +:+ state
                            +:+ ". " +:+ text)])
     | RRaise WaiterConfigError =>
         ∃ text,
           await_instances ec2 params ids state h
           = (Exit (fail_json
                [("msg", JStr (text +:+ ". Error waiting for instances "
                               +:+ join ", " ids +:+ " to reach state " +:+ state))]),
              h ++ [Called c (RRaise WaiterConfigError)])
     | RRaise e =>
         await_instances ec2 params ids state h
         = (Raise e, h ++ [Called c (RRaise e)])
     | r => await_instances ec2 params ids state h = (Ret tt, h ++ [Called c r])
     end).
Proof.
  unfold await_instances. split; [by intros ->|]. split.
  - intros -> Hnone. cbn [negb].
    destruct (_ !! state) as [waiter|] eqn:Hwaiter; [|done].
    by apply elem_of_list_to_map_2, Hnone in Hwaiter.
  - intros -> waiter Hwaiter. cbn [negb].
    apply elem_of_list_to_map_1 in Hwaiter;
      [|apply (bool_decide_unpack _); vm_compute; exact I].
    rewrite Hwaiter. cbv zeta. unfold try_except. rewrite M_bind_run, call_run.
    destruct (ec2 h _) as [| | | | | | | |[]]; cbn [answer]; unfold_M;
      rewrite <- ?app_assoc; try reflexivity.
    + by exists "WaiterError".
    + by exists "WaiterConfigError".
Qed.

Lemma await_instances_outcome_witness :
  ∃ text,
    await_instances slow_provider
      (sample_params None None None None None None None) ["i-0a1"] "STOPPED" []
    = (Ret tt,
       [] ++ [Called (waiter_wait "instance_stopped" ["i-0a1"] 15 (600 `div` 15))
                (RRaise WaiterError);
              Warned ("Instances " +:+ join ", " ["i-0a1"]
                      +:+ " took too long to reach state " +:+ "STOPPED"
                      +:+ ". " +:+ text)]).
Proof.
  refine (proj2 (proj2 (await_instances_outcome slow_provider
                          (sample_params None None None None None None None)
                          ["i-0a1"] "STOPPED" []))
            eq_refl "instance_stopped" _).
  apply (bool_decide_unpack _). vm_compute. exact I.
Defined.

(** ** Reconciliation of existing instances *)

Lemma diff_mapping_reconciles ec2 id_ params skip mapping changes :
  emits (reconciles id_) (diff_mapping ec2 id_ params skip mapping changes).
Proof.
  intros h.
  destruct (diff_mapping_run ec2 id_ params skip mapping changes h)
    as (t & Ht & [->|(_ & _ & ->)] & _); eexists; (split; [exact Ht|]);
    by repeat constructor.
Qed.

Lemma diff_mapping_targets ec2 id_ params skip mapping changes h out h' :
  diff_mapping ec2 id_ params skip mapping changes h = (Ret out, h') →
  Forall (λ c, change_InstanceId c = id_) changes →
  Forall (λ c, change_InstanceId c = id_) out.
Proof.
  intros Hrun Hchanges.
  destruct (diff_mapping_run ec2 id_ params skip mapping changes h)
    as (_ & _ & _ & Hout).
  rewrite Hrun in Hout. destruct (Hout _ eq_refl) as [->|(w & _ & _ & ->)]; [done|].
  apply Forall_app. split; [done|]. by repeat constructor.
Qed.

Lemma diff_loop_targets ec2 id_ params skip l : ∀ changes h out h',
  for_each l (diff_mapping ec2 id_ params skip) changes h = (Ret out, h') →
  Forall (λ c, change_InstanceId c = id_) changes →
  Forall (λ c, change_InstanceId c = id_) out.
Proof.
  induction l as [|mapping l IH]; intros changes h out h'; cbn [for_each].
  { by intros [= <- _]. }
  intros (out1 & h1 & Hone & Hrest)%M_bind_Ret Hchanges.
  eapply IH; [exact Hrest|]. by eapply diff_mapping_targets.
Qed.

Lemma diff_instance_and_params_reconciles ec2 instance params skip :
  emits (reconciles (InstanceId instance))
    (diff_instance_and_params ec2 instance params skip).
Proof.
  unfold diff_instance_and_params. apply emits_bind.
  { apply emits_for_each. intros mapping changes _. apply diff_mapping_reconciles. }
  intros changes. destruct (network params ≫= source_dest_check) as [check|];
    [destruct (negb _)|]; apply emits_mret.
Qed.

Lemma diff_instance_and_params_targets ec2 instance params skip h changes h' :
  diff_instance_and_params ec2 instance params skip h = (Ret changes, h') →
  Forall (λ c, change_InstanceId c = InstanceId instance) changes.
Proof.
  unfold diff_instance_and_params.
  intros (out & h1 & Hloop%diff_loop_targets & Hlast)%M_bind_Ret; [|constructor].
  destruct (network params ≫= source_dest_check) as [check|];
    [destruct (negb _)|]; injection Hlast as <- _; [|done..].
  apply Forall_app. split; [done|]. by repeat constructor.
Qed.

Lemma change_network_attachments_reconciles ec2 instance params :
  emits (reconciles (InstanceId instance))
    (change_network_attachments ec2 instance params).
Proof.
  unfold change_network_attachments.
  destruct (network params ≫= interfaces) as [ints|]; [|apply emits_mret].
  apply emits_bind; [|intros; apply emits_mret].
  apply emits_for_each. intros eni [] _. unfold attach_one.
  destruct (index _ eni); [|apply emits_raise].
  apply emits_bind; [by apply emits_call|intros; apply emits_mret].
Qed.

Lemma change_instance_state_emits ec2 params transient retries filters desired_state :
  emits (transition_for desired_state)
    (change_instance_state ec2 params transient retries filters desired_state).
Proof. apply emits_backoff, change_instance_state_body_emits. Qed.

Lemma transition_for_reconciles desired_state id e :
  transition_for desired_state e → reconciles id e.
Proof. by destruct e as [[]|]. Qed.

(** X15: [handle_existing] never returns to its caller: every run ends
    in an exit of the module or in an exception, so the code that follows
    the call in [ensure_present], which creates an instance, is not reached
    when instances exist. With an empty list of instances the run ends in an
    [IndexError]. *)
Theorem handle_existing_never_returns
    ec2 params transient retries existing_matches changed state h :
  (∀ u, (handle_existing ec2 params transient retries existing_matches changed
           state h).1 ≠ Ret u)
  ∧ (existing_matches = [] →
     handle_existing ec2 params transient retries existing_matches changed state h
     = (Raise IndexError, h)).
Proof.
  split.
  - intros u Hret.
    destruct (handle_existing _ _ _ _ _ _ _ h) as [o h'] eqn:Hrun.
    cbn in Hret. subst o. unfold handle_existing in Hrun.
    apply M_bind_Ret in Hrun as ([] & h1 & _ & Hrun).
    destruct existing_matches as [|first rest]; [done|].
    apply M_bind_Ret in Hrun as (changes & h2 & _ & Hrun).
    apply M_bind_Ret in Hrun as ([] & h3 & _ & Hrun).
    apply M_bind_Ret in Hrun as (attached & h4 & _ & Hrun).
    apply M_bind_Ret in Hrun as (altered & h5 & _ & Hrun).
    done.
  - intros ->. unfold handle_existing. cbn [List.filter].
    rewrite (bool_decide_eq_false_2 (_ ≠ _)) by (by intros []).
    by rewrite andb_false_r.
Qed.

(** X16: of the instances that it is given, [handle_existing] reconciles
    the first one only: every request that reads or modifies an instance
    attribute, and every request that attaches an interface, names the first
    instance. *)
Theorem handle_existing_reconciles_first
    ec2 params transient retries first rest changed state h :
  Forall (reconciles (InstanceId first))
    (added h (handle_existing ec2 params transient retries (first :: rest)
                changed state h).2).
Proof.
  apply emits_added. unfold handle_existing. apply emits_bind.
  { destruct (_ && _); [|apply emits_mret].
    apply emits_bind; [|intros [[??]?]; apply emits_sys_exit].
    eapply emits_mono; [apply transition_for_reconciles|].
    apply change_instance_state_emits. }
  intros _.
  apply (emits_bind_post _ (Forall (λ c, change_InstanceId c = InstanceId first)));
    [apply diff_instance_and_params_reconciles
    |intros ???; apply diff_instance_and_params_targets|].
  intros changes Hchanges. apply emits_bind.
  { apply emits_for_each. intros c [] Hc. unfold modify_one.
    apply emits_bind; [|intros; apply emits_mret].
    apply emits_call. intros r. cbn. rewrite Forall_forall in Hchanges. auto. }
  intros _. apply emits_bind; [apply change_network_attachments_reconciles|].
  intros attached. apply emits_bind; [|intros; apply emits_sys_exit].
  apply find_instances_emits. by intros [[]|].
Qed.

(** X17: when the desired state is running or started and one of the
    existing instances is not running, [handle_existing] starts instances
    and does nothing else: beside describing instances and waiting, its only
    requests are [start_instances]; no attribute is read or modified and no
    interface is attached. *)
Theorem handle_existing_start_only
    ec2 params transient retries existing_matches changed state h :
  state ∈ ["running"; "started"] →
  Exists (λ i, StateName i ≠ "running") existing_matches →
  Forall (transition_for "RUNNING")
    (added h (handle_existing ec2 params transient retries existing_matches
                changed state h).2).
Proof.
  intros Hstate Hstopped. apply emits_added. unfold handle_existing.
  rewrite (bool_decide_eq_true_2 _ Hstate).
  rewrite bool_decide_eq_true_2; cycle 1.
  { apply Exists_exists in Hstopped as (i & Hi & Hname).
    intros Hnone. assert (i ∈ @nil Instance) as Hin; [|by apply elem_of_nil in Hin].
    rewrite <- Hnone. apply list_elem_of_In, filter_In.
    split; [by apply list_elem_of_In|]. by apply negb_true_iff, String.eqb_neq. }
  cbn [andb]. apply (emits_bind_post _ (λ _, False)).
  - apply emits_bind; [apply change_instance_state_emits|].
    intros [[??]?]. apply emits_sys_exit.
  - intros h0 [] h1 (a & h2 & _ & Hexit)%M_bind_Ret. by destruct a as [[??]?].
  - by intros [].
Qed.

Lemma handle_existing_start_only_witness :
  Forall (transition_for "RUNNING")
    (added []
       (handle_existing starting_provider
          (sample_params None None None None None None (Some running_filters))
          throttling 10 [sample_instance "i-0a1" "stopped"] false "running" []).2).
Proof.
  apply (handle_existing_start_only starting_provider
           (sample_params None None None None None None (Some running_filters))
           throttling 10 [sample_instance "i-0a1" "stopped"] false "running" []).
  - apply (bool_decide_unpack _). vm_compute. exact I.
  - apply Exists_cons_hd. discriminate.
Defined.

(** X18: for a configuration without a list of interfaces and without a
    subnet, when the provider lists a default VPC and no default subnet in
    it, [build_network_spec] does not end in a fatal error of the module: it
    raises a [TypeError], after the request for the default VPC and the
    request for its default subnets. *)
Theorem build_network_spec_no_default_subnet
    ec2 transient retries params h vpc vpcs :
  truthy_list (interfaces (default empty_network (network params))) = false →
  truthy_str (vpc_subnet_id params) = false →
  ec2 h (describe_vpcs
           (ansible_dict_to_boto3_filter_list {[ "isDefault" := ["true"] ]}))
  = RVpcs (vpc :: vpcs) →
  ec2 (h ++ [Called (describe_vpcs
                       (ansible_dict_to_boto3_filter_list
                          {[ "isDefault" := ["true"] ]}))
               (RVpcs (vpc :: vpcs))])
    (default_subnets_request vpc)
  = RSubnets [] →
  ∃ msg,
    build_network_spec ec2 transient retries params h
    = (Raise (TypeError msg),
       h ++ [Called (describe_vpcs
                       (ansible_dict_to_boto3_filter_list
                          {[ "isDefault" := ["true"] ]}))
               (RVpcs (vpc :: vpcs));
             Called (default_subnets_request vpc) (RSubnets [])]).
Proof.
  intros Hints Hsubnet Hvpcs Hsubnets. unfold build_network_spec.
  rewrite Hints, Hsubnet. cbn [negb].
  set (ev := Called _ (RVpcs (vpc :: vpcs))) in *.
  assert (get_default_vpc ec2 transient retries h = (Ret (Some vpc), h ++ [ev]))
    as Hvpc.
  { unfold get_default_vpc, jittered_backoff. apply backoff_Ret.
    by rewrite M_bind_run, call_run, Hvpcs. }
  assert (get_default_subnet ec2 transient retries vpc None (h ++ [ev])
          = (Ret None,
             (h ++ [ev]) ++ [Called (default_subnets_request vpc) (RSubnets [])]))
    as Hsub.
  { unfold get_default_subnet, jittered_backoff. apply backoff_Ret.
    unfold get_default_subnet_body.
    change (describe_subnets_filters _) with (default_subnets_request vpc).
    by rewrite M_bind_run, call_run, Hsubnets. }
  eexists. rewrite !M_bind_run, Hvpc, M_bind_run, Hsub, <- app_assoc. reflexivity.
Qed.

Lemma build_network_spec_no_default_subnet_witness :
  ∃ msg,
    build_network_spec empty_vpc_provider throttling 10
      (sample_params (Some "ami-0abc") None None None None None None) []
    = (Raise (TypeError msg),
       [] ++ [Called (describe_vpcs
                        (ansible_dict_to_boto3_filter_list
                           {[ "isDefault" := ["true"] ]}))
                (RVpcs (mkVpc "vpc-1" :: []));
              Called (default_subnets_request (mkVpc "vpc-1")) (RSubnets [])]).
Proof.
  apply (build_network_spec_no_default_subnet empty_vpc_provider throttling 10
           (sample_params (Some "ami-0abc") None None None None None None) []
           (mkVpc "vpc-1") []); reflexivity.
Defined.

Lemma transition_for_state_allows desired_state state e :
  (desired_state = "TERMINATED" → state ∈ ["absent"; "terminated"]) →
  (desired_state = "STOPPED" → state ∈ ["restarted"; "rebooted"; "stopped"]) →
  (desired_state = "RUNNING" →
   state ∈ ["running"; "started"; "restarted"; "rebooted"]) →
  transition_for desired_state e → state_allows state e.
Proof. destruct e as [[]|]; cbn; tauto. Qed.

Lemma report_state_change_emits Q fail_msg ok_msg success_key failed_key
    changed failed instances :
  emits Q (report_state_change fail_msg ok_msg success_key failed_key
             changed failed instances).
Proof.
  unfold report_state_change. apply emits_bind; [|intros; apply emits_sys_exit].
  case_bool_decide; [apply emits_sys_exit|apply emits_mret].
Qed.

(** X19: [ensure_instance_state] asks the provider only for the
    transitions that belong to the state: it terminates instances only for
    [absent] and [terminated], stops them only for [restarted], [rebooted]
    and [stopped], and starts them only for [running], [started], [restarted]
    and [rebooted]; beside that it describes instances and waits. For a state
    outside these it makes no request. *)
Theorem ensure_instance_state_requests ec2 params transient retries state h :
  Forall (state_allows state)
    (added h (ensure_instance_state ec2 params transient retries state h).2)
  ∧ (state ∉ ["running"; "started"; "restarted"; "rebooted"; "stopped";
              "absent"; "terminated"] →
     ensure_instance_state ec2 params transient retries state h = (Ret tt, h)).
Proof.
  split; cycle 1.
  { intros Hstate. unfold ensure_instance_state.
    by rewrite !bool_decide_eq_false_2 by set_solver. }
  apply emits_added. unfold ensure_instance_state.
  repeat case_bool_decide.
  all: repeat first
    [ apply emits_mret
    | apply report_state_change_emits
    | apply emits_bind;
        [eapply emits_mono; [|apply change_instance_state_emits];
         intros e; apply transition_for_state_allows; intros; first [done|set_solver]
        |intros [[??]?]] ].
Qed.
